(** * Realtime conversation engine: store reducer and client

    A shallow embedding of [app/realtime/__init__.py]: the conversation
    store ([RealtimeConversation]), the transport ([RealtimeAPI]) and the
    client ([RealtimeClient]), with the Python objects the code mutates in
    place kept in an explicit heap so that aliasing between [item_lookup],
    [items] and the item a handler returns is visible. *)

From Stdlib Require Import List ZArith String Ascii Lia Bool Arith DecimalString.
From Stdlib.Strings Require Import Byte.
From Stdlib Require Import PrimFloat FloatOps SpecFloat.
Import ListNotations.

Open Scope string_scope.
Open Scope Z_scope.

Set Implicit Arguments.

(** ** Python values and exceptions *)

Definition bytes := list byte.

(** Exceptions the modelled code can raise.  [PyException] is a plain
    [raise Exception(msg)]; the others are raised by the language itself
    (missing dictionary key, index out of range, ...). *)
Inductive exn : Type :=
| PyException (msg : string)
| KeyError (key : string)
| IndexError (msg : string)
| TypeError (msg : string)
| AttributeError (msg : string)
| ValueError (msg : string)
| ZeroDivisionError (msg : string).

(** [str(e)] *)
Definition exn_str (e : exn) : string :=
  match e with
  | PyException m => m
  | KeyError k => "'" ++ k ++ "'"
  | IndexError m => m
  | TypeError m => m
  | AttributeError m => m
  | ValueError m => m
  | ZeroDivisionError m => m
  end.

Inductive outcome (A : Type) : Type :=
| Ok (a : A)
| Raise (e : exn).
Arguments Ok {A} a.
Arguments Raise {A} e.

Definition is_ok {A} (o : outcome A) : bool :=
  match o with Ok _ => true | Raise _ => false end.

(** State-and-exception monad: a raised exception keeps the state reached
    so far, as a Python exception leaves the mutations already done. *)
Definition M (S A : Type) : Type := S -> outcome A * S.

Definition ret {S A} (a : A) : M S A := fun s => (Ok a, s).
Definition raise {S A} (e : exn) : M S A := fun s => (Raise e, s).
Definition bind {S A B} (m : M S A) (k : A -> M S B) : M S B :=
  fun s => match m s with
           | (Ok a, s') => k a s'
           | (Raise e, s') => (Raise e, s')
           end.
Definition get {S} : M S S := fun s => (Ok s, s).
Definition gets {S A} (f : S -> A) : M S A := fun s => (Ok (f s), s).
Definition modify {S} (f : S -> S) : M S unit := fun s => (Ok tt, f s).
Definition when {S} (b : bool) (m : M S unit) : M S unit :=
  if b then m else ret tt.

Declare Scope py_scope.
Delimit Scope py_scope with py.
Notation "x <- m ;; k" := (bind m (fun x => k))
  (at level 61, m at next level, right associativity) : py_scope.
Notation "m ;; k" := (bind m (fun _ => k))
  (at level 61, right associativity) : py_scope.
Open Scope py_scope.

(** [for x in l: body x] *)
Fixpoint for_each {S A} (l : list A) (body : A -> M S unit) : M S unit :=
  match l with
  | [] => ret tt
  | x :: l' => body x ;; for_each l' body
  end.

(** ** Python sequences *)

(** Normalisation of one slice bound against a sequence of length [len]:
    a negative bound counts from the end, and the result is clamped to
    [0 .. len]. *)
Definition py_clamp (len i : Z) : Z :=
  if i <? 0 then Z.max 0 (i + len) else Z.min i len.

(** [l[start:stop]] *)
Definition py_slice {A} (l : list A) (start stop : Z) : list A :=
  let n := Z.of_nat (List.length l) in
  let a := py_clamp n start in
  let b := py_clamp n stop in
  firstn (Z.to_nat (b - a)) (skipn (Z.to_nat a) l).

(** [l[:stop]] *)
Definition py_slice_to {A} (l : list A) (stop : Z) : list A :=
  py_slice l 0 stop.

(** Position denoted by [l[i]], if any: negative indices count from the
    end. *)
Definition py_index_pos {A} (l : list A) (i : Z) : option nat :=
  let n := Z.of_nat (List.length l) in
  if (0 <=? i) && (i <? n) then Some (Z.to_nat i)
  else if (- n <=? i) && (i <? 0) then Some (Z.to_nat (i + n))
  else None.

Fixpoint list_set {A} (l : list A) (n : nat) (x : A) : list A :=
  match l, n with
  | [], _ => []
  | _ :: l', O => x :: l'
  | y :: l', S n' => y :: list_set l' n' x
  end.

(** ** Python dictionaries with string keys

    A [dict] keeps its keys in insertion order; assigning to an existing
    key keeps the key's position, deleting and re-inserting a key moves it
    to the end. *)
Definition dict (V : Type) : Type := list (string * V).

Fixpoint dict_get {V} (k : string) (d : dict V) : option V :=
  match d with
  | [] => None
  | (k', v) :: d' => if String.eqb k k' then Some v else dict_get k d'
  end.

Definition dict_mem {V} (k : string) (d : dict V) : bool :=
  match dict_get k d with Some _ => true | None => false end.

Fixpoint dict_set {V} (k : string) (v : V) (d : dict V) : dict V :=
  match d with
  | [] => [(k, v)]
  | (k', v') :: d' =>
      if String.eqb k k' then (k', v) :: d' else (k', v') :: dict_set k v d'
  end.

(** [del d[k]] for a key that is present (the callers test membership
    first). *)
Fixpoint dict_del {V} (k : string) (d : dict V) : dict V :=
  match d with
  | [] => []
  | (k', v') :: d' =>
      if String.eqb k k' then dict_del k d' else (k', v') :: dict_del k d'
  end.

Definition dict_keys {V} (d : dict V) : list string := map fst d.
Definition dict_values {V} (d : dict V) : list V := map snd d.

(** ** Items, responses and events *)

(** One entry of an item's [content] list.  [None] stands for a key that
    is missing (or null): reading it for [+=] raises. *)
Record content_part : Type := {
  c_type : string;
  c_text : option string;
  c_transcript : option string;
  c_audio : option string
}.

(** [formatted["audio"]]: the list of byte chunks built by audio deltas,
    or one flat byte buffer (the captured input audio or a slice of it). *)
Inductive audio_t : Type :=
| AudioChunks (chunks : list bytes)
| AudioBuf (buf : bytes).

Record tool_t : Type := {
  t_type : string;
  t_name : string;
  t_call_id : string;
  t_arguments : string
}.

Record formatted_t : Type := {
  f_audio : audio_t;
  f_text : string;
  f_transcript : string;
  f_tool : option tool_t;
  f_output : option string
}.

(** An item dictionary.  Optional fields are keys that may be absent. *)
Record item : Type := {
  i_id : string;
  i_type : string;
  i_role : option string;
  i_content : option (list content_part);
  i_name : option string;
  i_call_id : option string;
  i_arguments : option string;
  i_output : option string;
  i_status : option string;
  i_formatted : option formatted_t
}.

Record response : Type := {
  r_id : string;
  r_output : list string
}.

Record speech : Type := {
  audio_start_ms : Z;
  audio_end_ms : option Z;
  audio : option bytes
}.

(** Server events handled by the store, one constructor per key of
    [EventProcessors]; [UnknownEvent] is any other event type. *)
Inductive event : Type :=
| ConversationItemCreated (it : item)
| ConversationItemTruncated (item_id : string) (content_index : Z) (end_ms : Z)
| ConversationItemDeleted (item_id : string)
| InputAudioTranscriptionCompleted (item_id : string) (content_index : Z)
    (transcript : string)
| SpeechStarted (item_id : string) (start_ms : Z)
| SpeechStopped (item_id : string) (end_ms : Z)
| ResponseCreated (r : response)
| ResponseOutputItemAdded (response_id : string) (it : item)
| ResponseOutputItemDone (it : option item)
| ResponseContentPartAdded (item_id : string) (part : content_part)
| ResponseAudioTranscriptDelta (item_id : string) (content_index : Z)
    (delta : string)
| ResponseAudioDelta (item_id : string) (content_index : Z) (delta : string)
| ResponseTextDelta (item_id : string) (content_index : Z) (delta : string)
| ResponseFunctionCallArgumentsDelta (item_id : string) (delta : string)
| UnknownEvent (type : string).

Definition event_type (ev : event) : string :=
  match ev with
  | ConversationItemCreated _ => "conversation.item.created"
  | ConversationItemTruncated _ _ _ => "conversation.item.truncated"
  | ConversationItemDeleted _ => "conversation.item.deleted"
  | InputAudioTranscriptionCompleted _ _ _ =>
      "conversation.item.input_audio_transcription.completed"
  | SpeechStarted _ _ => "input_audio_buffer.speech_started"
  | SpeechStopped _ _ => "input_audio_buffer.speech_stopped"
  | ResponseCreated _ => "response.created"
  | ResponseOutputItemAdded _ _ => "response.output_item.added"
  | ResponseOutputItemDone _ => "response.output_item.done"
  | ResponseContentPartAdded _ _ => "response.content_part.added"
  | ResponseAudioTranscriptDelta _ _ _ => "response.audio_transcript.delta"
  | ResponseAudioDelta _ _ _ => "response.audio.delta"
  | ResponseTextDelta _ _ _ => "response.text.delta"
  | ResponseFunctionCallArgumentsDelta _ _ =>
      "response.function_call_arguments.delta"
  | UnknownEvent t => t
  end.

(** The second component of what a handler returns. *)
Inductive delta_t : Type :=
| DTranscript (s : string)
| DAudio (b : bytes)
| DText (s : string)
| DArguments (s : string).

(** ** Structural equality of items ([==] on dictionaries) *)

Definition option_eq_dec {A} (dec : forall x y : A, {x = y} + {x <> y})
  (x y : option A) : {x = y} + {x <> y}.
Proof. decide equality. Defined.

Definition bytes_eq_dec (x y : bytes) : {x = y} + {x <> y} :=
  list_eq_dec byte_eq_dec x y.

Definition content_part_eq_dec (x y : content_part) : {x = y} + {x <> y}.
Proof.
  decide equality; try apply (option_eq_dec string_dec); apply string_dec.
Defined.

Definition audio_eq_dec (x y : audio_t) : {x = y} + {x <> y}.
Proof.
  decide equality;
    [apply (list_eq_dec bytes_eq_dec) | apply bytes_eq_dec].
Defined.

Definition tool_eq_dec (x y : tool_t) : {x = y} + {x <> y}.
Proof. decide equality; apply string_dec. Defined.

Definition formatted_eq_dec (x y : formatted_t) : {x = y} + {x <> y}.
Proof.
  decide equality;
    first [ apply (option_eq_dec string_dec)
          | apply (option_eq_dec tool_eq_dec)
          | apply string_dec
          | apply audio_eq_dec ].
Defined.

Definition item_eq_dec (x y : item) : {x = y} + {x <> y}.
Proof.
  decide equality;
    first [ apply (option_eq_dec formatted_eq_dec)
          | apply (option_eq_dec string_dec)
          | apply (option_eq_dec (list_eq_dec content_part_eq_dec))
          | apply string_dec ].
Defined.

Definition item_eqb (x y : item) : bool :=
  if item_eq_dec x y then true else false.

(** ** The conversation store ([RealtimeConversation]) *)

(** References to item and response objects are positions in a heap:
    [item_lookup] and [items] hold references to the same objects, and a
    handler returns the reference of the item it touched. *)
Definition ref := nat.

Record RealtimeConversation : Type := {
  heap : list item;
  item_lookup : dict ref;
  items : list ref;
  rheap : list response;
  response_lookup : dict ref;
  responses : list ref;
  queued_speech_items : dict speech;
  queued_transcript_items : dict string;
  queued_input_audio : option bytes
}.

Definition set_heap (h : list item) (st : RealtimeConversation) : RealtimeConversation :=
  {| heap := h; item_lookup := item_lookup st; items := items st;
     rheap := rheap st; response_lookup := response_lookup st;
     responses := responses st;
     queued_speech_items := queued_speech_items st;
     queued_transcript_items := queued_transcript_items st;
     queued_input_audio := queued_input_audio st |}.

Definition set_item_lookup (d : dict ref) (st : RealtimeConversation) : RealtimeConversation :=
  {| heap := heap st; item_lookup := d; items := items st;
     rheap := rheap st; response_lookup := response_lookup st;
     responses := responses st;
     queued_speech_items := queued_speech_items st;
     queued_transcript_items := queued_transcript_items st;
     queued_input_audio := queued_input_audio st |}.

Definition set_items (l : list ref) (st : RealtimeConversation) : RealtimeConversation :=
  {| heap := heap st; item_lookup := item_lookup st; items := l;
     rheap := rheap st; response_lookup := response_lookup st;
     responses := responses st;
     queued_speech_items := queued_speech_items st;
     queued_transcript_items := queued_transcript_items st;
     queued_input_audio := queued_input_audio st |}.

Definition set_rheap (h : list response) (st : RealtimeConversation) : RealtimeConversation :=
  {| heap := heap st; item_lookup := item_lookup st; items := items st;
     rheap := h; response_lookup := response_lookup st;
     responses := responses st;
     queued_speech_items := queued_speech_items st;
     queued_transcript_items := queued_transcript_items st;
     queued_input_audio := queued_input_audio st |}.

Definition set_response_lookup (d : dict ref) (st : RealtimeConversation)
  : RealtimeConversation :=
  {| heap := heap st; item_lookup := item_lookup st; items := items st;
     rheap := rheap st; response_lookup := d;
     responses := responses st;
     queued_speech_items := queued_speech_items st;
     queued_transcript_items := queued_transcript_items st;
     queued_input_audio := queued_input_audio st |}.

Definition set_responses (l : list ref) (st : RealtimeConversation) : RealtimeConversation :=
  {| heap := heap st; item_lookup := item_lookup st; items := items st;
     rheap := rheap st; response_lookup := response_lookup st;
     responses := l;
     queued_speech_items := queued_speech_items st;
     queued_transcript_items := queued_transcript_items st;
     queued_input_audio := queued_input_audio st |}.

Definition set_queued_speech_items (d : dict speech) (st : RealtimeConversation)
  : RealtimeConversation :=
  {| heap := heap st; item_lookup := item_lookup st; items := items st;
     rheap := rheap st; response_lookup := response_lookup st;
     responses := responses st;
     queued_speech_items := d;
     queued_transcript_items := queued_transcript_items st;
     queued_input_audio := queued_input_audio st |}.

Definition set_queued_transcript_items (d : dict string) (st : RealtimeConversation)
  : RealtimeConversation :=
  {| heap := heap st; item_lookup := item_lookup st; items := items st;
     rheap := rheap st; response_lookup := response_lookup st;
     responses := responses st;
     queued_speech_items := queued_speech_items st;
     queued_transcript_items := d;
     queued_input_audio := queued_input_audio st |}.

Definition set_queued_input_audio (a : option bytes) (st : RealtimeConversation)
  : RealtimeConversation :=
  {| heap := heap st; item_lookup := item_lookup st; items := items st;
     rheap := rheap st; response_lookup := response_lookup st;
     responses := responses st;
     queued_speech_items := queued_speech_items st;
     queued_transcript_items := queued_transcript_items st;
     queued_input_audio := a |}.

(** Updates of single keys of an item and of its [formatted] dictionary. *)
Definition with_formatted (f : option formatted_t) (it : item) : item :=
  {| i_id := i_id it; i_type := i_type it; i_role := i_role it;
     i_content := i_content it; i_name := i_name it;
     i_call_id := i_call_id it; i_arguments := i_arguments it;
     i_output := i_output it; i_status := i_status it;
     i_formatted := f |}.

Definition with_status (s : option string) (it : item) : item :=
  {| i_id := i_id it; i_type := i_type it; i_role := i_role it;
     i_content := i_content it; i_name := i_name it;
     i_call_id := i_call_id it; i_arguments := i_arguments it;
     i_output := i_output it; i_status := s;
     i_formatted := i_formatted it |}.

Definition with_content (c : option (list content_part)) (it : item) : item :=
  {| i_id := i_id it; i_type := i_type it; i_role := i_role it;
     i_content := c; i_name := i_name it;
     i_call_id := i_call_id it; i_arguments := i_arguments it;
     i_output := i_output it; i_status := i_status it;
     i_formatted := i_formatted it |}.

Definition with_arguments (a : option string) (it : item) : item :=
  {| i_id := i_id it; i_type := i_type it; i_role := i_role it;
     i_content := i_content it; i_name := i_name it;
     i_call_id := i_call_id it; i_arguments := a;
     i_output := i_output it; i_status := i_status it;
     i_formatted := i_formatted it |}.

Definition with_audio (a : audio_t) (f : formatted_t) : formatted_t :=
  {| f_audio := a; f_text := f_text f; f_transcript := f_transcript f;
     f_tool := f_tool f; f_output := f_output f |}.

Definition with_text (s : string) (f : formatted_t) : formatted_t :=
  {| f_audio := f_audio f; f_text := s; f_transcript := f_transcript f;
     f_tool := f_tool f; f_output := f_output f |}.

Definition with_transcript (s : string) (f : formatted_t) : formatted_t :=
  {| f_audio := f_audio f; f_text := f_text f; f_transcript := s;
     f_tool := f_tool f; f_output := f_output f |}.

Definition with_tool (t : option tool_t) (f : formatted_t) : formatted_t :=
  {| f_audio := f_audio f; f_text := f_text f;
     f_transcript := f_transcript f; f_tool := t; f_output := f_output f |}.

Definition with_output (o : option string) (f : formatted_t) : formatted_t :=
  {| f_audio := f_audio f; f_text := f_text f;
     f_transcript := f_transcript f; f_tool := f_tool f; f_output := o |}.

Definition with_c_text (s : option string) (c : content_part) : content_part :=
  {| c_type := c_type c; c_text := s; c_transcript := c_transcript c;
     c_audio := c_audio c |}.

Definition with_c_transcript (s : option string) (c : content_part)
  : content_part :=
  {| c_type := c_type c; c_text := c_text c; c_transcript := s;
     c_audio := c_audio c |}.

Definition with_t_arguments (s : string) (t : tool_t) : tool_t :=
  {| t_type := t_type t; t_name := t_name t; t_call_id := t_call_id t;
     t_arguments := s |}.

Definition with_r_output (o : list string) (r : response) : response :=
  {| r_id := r_id r; r_output := o |}.

(** The double-quote character, for messages that quote an identifier. *)
Definition dq : string :=
  String (Ascii false true false false false true false false) EmptyString.

Definition quoted (s : string) : string := dq ++ s ++ dq.

(** [{"audio": [], "text": "", "transcript": ""}] *)
Definition formatted_init : formatted_t :=
  {| f_audio := AudioChunks []; f_text := EmptyString;
     f_transcript := EmptyString; f_tool := None; f_output := None |}.

(** [clear()]: all containers are rebound to fresh empty ones.  Objects
    already handed out stay where they are in the heap. *)
Definition clear (st : RealtimeConversation) : RealtimeConversation :=
  {| heap := heap st; item_lookup := []; items := [];
     rheap := rheap st; response_lookup := []; responses := [];
     queued_speech_items := []; queued_transcript_items := [];
     queued_input_audio := None |}.

(** [RealtimeConversation()] *)
Definition RealtimeConversation_init : RealtimeConversation :=
  {| heap := []; item_lookup := []; items := [];
     rheap := []; response_lookup := []; responses := [];
     queued_speech_items := []; queued_transcript_items := [];
     queued_input_audio := None |}.

Definition queue_input_audio (input_audio : option bytes) (st : RealtimeConversation)
  : RealtimeConversation :=
  set_queued_input_audio input_audio st.

(** [get_item(id)]: the reference of the stored item, if any. *)
Definition get_item (id : string) (st : RealtimeConversation) : option ref :=
  dict_get id (item_lookup st).

Definition get_items (st : RealtimeConversation) : list ref := items st.

(** Truth value of an optional byte buffer ([None] and the empty buffer
    are false). *)
Definition truthy_bytes (b : option bytes) : bool :=
  match b with
  | Some (_ :: _) => true
  | _ => false
  end.

(** [s or " "] *)
Definition or_space (s : string) : string :=
  match s with EmptyString => " " | _ => s end.

Fixpoint list_upd {A} (l : list A) (n : nat) (f : A -> A) : list A :=
  match l, n with
  | [], _ => []
  | x :: l', O => f x :: l'
  | x :: l', S n' => x :: list_upd l' n' f
  end.

(** [l.remove(x)] on a list of references: drops the first element that
    is [x] itself or compares equal to it; [None] when there is none
    (Python raises [ValueError]). *)
Fixpoint list_remove (h : list item) (x : ref) (l : list ref)
  : option (list ref) :=
  match l with
  | [] => None
  | r :: l' =>
      if (Nat.eqb r x)
         || match nth_error h r, nth_error h x with
            | Some a, Some b => item_eqb a b
            | _, _ => false
            end
      then Some l'
      else option_map (cons r) (list_remove h x l')
  end.

Definition handler_result : Type := (option ref * option delta_t)%type.

Section Store.

(** [default_frequency = config.features.audio.sample_rate], supplied by
    the host configuration. *)
Variable default_frequency : Z.

(** [base64.b64decode], [None] when it raises [binascii.Error]. *)
Variable b64decode : string -> option bytes.

Definition St := M RealtimeConversation.

(** *** Heap access *)

(** A new dictionary object; its reference is the next free position. *)
Definition alloc (it : item) : St ref :=
  fun st => (Ok (List.length (heap st)), set_heap (heap st ++ [it]) st).

(** Dereference.  References come from [alloc] only, so the failure
    branch is not reachable from a store built by the handlers. *)
Definition load (r : ref) : St item :=
  fun st => match nth_error (heap st) r with
            | Some it => (Ok it, st)
            | None => (Raise (PyException "dangling reference"), st)
            end.

Definition update (r : ref) (f : item -> item) : St unit :=
  modify (fun st => set_heap (list_upd (heap st) r f) st).

(** [item["formatted"]] *)
Definition get_formatted (r : ref) : St formatted_t :=
  it <- load r ;;
  match i_formatted it with
  | Some f => ret f
  | None => raise (KeyError "formatted")
  end.

(** [item["formatted"][k] = v], as an update of the [formatted]
    dictionary of the object at [r]. *)
Definition fmt_update (r : ref) (g : formatted_t -> formatted_t) : St unit :=
  f <- get_formatted r ;;
  update r (with_formatted (Some (g f))).

(** [item["content"][content_index]] with its position. *)
Definition get_content_part (r : ref) (content_index : Z)
  : St (list content_part * nat * content_part) :=
  it <- load r ;;
  match i_content it with
  | None => raise (KeyError "content")
  | Some cs =>
      match py_index_pos cs content_index with
      | None => raise (IndexError "list index out of range")
      | Some pos =>
          match nth_error cs pos with
          | Some c => ret (cs, pos, c)
          | None => raise (IndexError "list index out of range")
          end
      end
  end.

Definition is_text_type (t : string) : bool :=
  String.eqb t "text" || String.eqb t "input_text".

(** *** Event handlers *)

Definition _process_item_created (it : item) : St handler_result :=
  new_item <- alloc it ;;
  let id := i_id it in
  lk <- gets item_lookup ;;
  when (negb (dict_mem id lk))
    (modify (fun st => set_item_lookup (dict_set id new_item (item_lookup st)) st) ;;
     modify (fun st => set_items (items st ++ [new_item])%list st)) ;;
  update new_item (with_formatted (Some formatted_init)) ;;
  qs <- gets queued_speech_items ;;
  match dict_get id qs with
  | Some sp =>
      match audio sp with
      | Some a =>
          fmt_update new_item (with_audio (AudioBuf a)) ;;
          modify (fun st =>
            set_queued_speech_items (dict_del id (queued_speech_items st)) st)
      | None => raise (KeyError "audio")
      end
  | None => ret tt
  end ;;
  match i_content it with
  | Some cs =>
      for_each (filter (fun c => is_text_type (c_type c)) cs)
        (fun c =>
           match c_text c with
           | Some t => fmt_update new_item (fun f => with_text (f_text f ++ t) f)
           | None => raise (KeyError "text")
           end)
  | None => ret tt
  end ;;
  qt <- gets queued_transcript_items ;;
  match dict_get id qt with
  | Some t =>
      fmt_update new_item (with_transcript t) ;;
      modify (fun st =>
        set_queued_transcript_items (dict_del id (queued_transcript_items st)) st)
  | None => ret tt
  end ;;
  (if String.eqb (i_type it) "message" then
     match i_role it with
     | None => raise (KeyError "role")
     | Some role =>
         if String.eqb role "user" then
           update new_item (with_status (Some "completed")) ;;
           qa <- gets queued_input_audio ;;
           match qa with
           | Some (b :: bs) =>
               fmt_update new_item (with_audio (AudioBuf (b :: bs))) ;;
               modify (set_queued_input_audio None)
           | _ => ret tt
           end
         else
           update new_item (with_status (Some "in_progress"))
     end
   else if String.eqb (i_type it) "function_call" then
     match i_name it with
     | None => raise (KeyError "name")
     | Some name =>
         match i_call_id it with
         | None => raise (KeyError "call_id")
         | Some call_id =>
             fmt_update new_item
               (with_tool (Some {| t_type := "function"; t_name := name;
                                   t_call_id := call_id;
                                   t_arguments := EmptyString |})) ;;
             update new_item (with_status (Some "in_progress"))
         end
     end
   else if String.eqb (i_type it) "function_call_output" then
     update new_item (with_status (Some "completed")) ;;
     match i_output it with
     | None => raise (KeyError "output")
     | Some out => fmt_update new_item (with_output (Some out))
     end
   else ret tt) ;;
  ret (Some new_item, None).

Definition truncate_audio (a : audio_t) (end_index : Z) : audio_t :=
  match a with
  | AudioChunks cs => AudioChunks (py_slice_to cs end_index)
  | AudioBuf b => AudioBuf (py_slice_to b end_index)
  end.

Definition _process_item_truncated (item_id : string) (end_ms : Z)
  : St handler_result :=
  lk <- gets item_lookup ;;
  match dict_get item_id lk with
  | None =>
      raise (PyException
               ("item.truncated: Item " ++ quoted item_id ++ " not found"))
  | Some r =>
      let end_index := (end_ms * default_frequency) / 1000 in
      fmt_update r (with_transcript EmptyString) ;;
      fmt_update r (fun f => with_audio (truncate_audio (f_audio f) end_index) f) ;;
      ret (Some r, None)
  end.

Definition _process_item_deleted (item_id : string) : St handler_result :=
  lk <- gets item_lookup ;;
  match dict_get item_id lk with
  | None =>
      raise (PyException
               ("item.deleted: Item " ++ quoted item_id ++ " not found"))
  | Some r =>
      it <- load r ;;
      lk <- gets item_lookup ;;
      (if dict_mem (i_id it) lk
       then modify (fun st =>
              set_item_lookup (dict_del (i_id it) (item_lookup st)) st)
       else raise (KeyError (i_id it))) ;;
      st <- get ;;
      match list_remove (heap st) r (items st) with
      | Some l => modify (set_items l)
      | None => raise (ValueError "list.remove(x): x not in list")
      end ;;
      ret (Some r, None)
  end.

Definition _process_input_audio_transcription_completed
  (item_id : string) (content_index : Z) (transcript : string)
  : St handler_result :=
  let formatted_transcript := or_space transcript in
  lk <- gets item_lookup ;;
  match dict_get item_id lk with
  | None =>
      modify (fun st =>
        set_queued_transcript_items
          (dict_set item_id formatted_transcript (queued_transcript_items st))
          st) ;;
      ret (None, None)
  | Some r =>
      p <- get_content_part r content_index ;;
      let '(cs, pos, c) := p in
      update r (with_content
                  (Some (list_set cs pos
                           (with_c_transcript (Some transcript) c)))) ;;
      fmt_update r (with_transcript formatted_transcript) ;;
      ret (Some r, Some (DTranscript transcript))
  end.

Definition _process_speech_started (item_id : string) (start_ms : Z)
  : St handler_result :=
  modify (fun st =>
    set_queued_speech_items
      (dict_set item_id
         {| audio_start_ms := start_ms; audio_end_ms := None; audio := None |}
         (queued_speech_items st)) st) ;;
  ret (None, None).

Definition _process_speech_stopped (item_id : string) (end_ms : Z)
  (input_audio_buffer : option bytes) : St handler_result :=
  qs <- gets queued_speech_items ;;
  match dict_get item_id qs with
  | None => raise (KeyError item_id)
  | Some sp =>
      let sp1 := {| audio_start_ms := audio_start_ms sp;
                    audio_end_ms := Some end_ms; audio := audio sp |} in
      modify (fun st =>
        set_queued_speech_items
          (dict_set item_id sp1 (queued_speech_items st)) st) ;;
      match input_audio_buffer with
      | Some (b :: bs) =>
          let start_index := (audio_start_ms sp1 * default_frequency) / 1000 in
          let end_index := (end_ms * default_frequency) / 1000 in
          modify (fun st =>
            set_queued_speech_items
              (dict_set item_id
                 {| audio_start_ms := audio_start_ms sp1;
                    audio_end_ms := Some end_ms;
                    audio := Some (py_slice (b :: bs) start_index end_index) |}
                 (queued_speech_items st)) st)
      | _ => ret tt
      end ;;
      ret (None, None)
  end.

Definition _process_response_created (resp : response) : St handler_result :=
  lk <- gets response_lookup ;;
  when (negb (dict_mem (r_id resp) lk))
    (modify (fun st =>
       let r := List.length (rheap st) in
       set_responses (responses st ++ [r])%list
         (set_response_lookup (dict_set (r_id resp) r (response_lookup st))
            (set_rheap (rheap st ++ [resp])%list st)))) ;;
  ret (None, None).

Definition _process_output_item_added (response_id : string) (it : item)
  : St handler_result :=
  lk <- gets response_lookup ;;
  match dict_get response_id lk with
  | None =>
      raise (PyException
               ("response.output_item.added: Response "
                  ++ quoted response_id ++ " not found"))
  | Some r =>
      modify (fun st =>
        set_rheap
          (list_upd (rheap st) r
             (fun resp => with_r_output (r_output resp ++ [i_id it])%list resp))
          st) ;;
      ret (None, None)
  end.

Definition _process_output_item_done (oit : option item) : St handler_result :=
  match oit with
  | None =>
      raise (PyException
               ("response.output_item.done: Missing " ++ quoted "item"))
  | Some it =>
      lk <- gets item_lookup ;;
      match dict_get (i_id it) lk with
      | None =>
          raise (PyException
                   ("response.output_item.done: Item "
                      ++ quoted (i_id it) ++ " not found"))
      | Some r =>
          match i_status it with
          | None => raise (KeyError "status")
          | Some s =>
              update r (with_status (Some s)) ;;
              ret (Some r, None)
          end
      end
  end.

Definition _process_content_part_added (item_id : string)
  (part : content_part) : St handler_result :=
  lk <- gets item_lookup ;;
  match dict_get item_id lk with
  | None =>
      raise (PyException
               ("response.content_part.added: Item "
                  ++ quoted item_id ++ " not found"))
  | Some r =>
      it <- load r ;;
      match i_content it with
      | None => raise (KeyError "content")
      | Some cs =>
          update r (with_content (Some (cs ++ [part])%list)) ;;
          ret (Some r, None)
      end
  end.

Definition _process_audio_transcript_delta (item_id : string)
  (content_index : Z) (delta : string) : St handler_result :=
  lk <- gets item_lookup ;;
  match dict_get item_id lk with
  | None =>
      raise (PyException
               ("response.audio_transcript.delta: Item "
                  ++ quoted item_id ++ " not found"))
  | Some r =>
      p <- get_content_part r content_index ;;
      let '(cs, pos, c) := p in
      match c_transcript c with
      | None => raise (KeyError "transcript")
      | Some old =>
          update r (with_content
                      (Some (list_set cs pos
                               (with_c_transcript (Some (old ++ delta)) c)))) ;;
          fmt_update r (fun f => with_transcript (f_transcript f ++ delta) f) ;;
          ret (Some r, Some (DTranscript delta))
      end
  end.

Definition _process_audio_delta (item_id : string) (content_index : Z)
  (delta : string) : St handler_result :=
  lk <- gets item_lookup ;;
  match dict_get item_id lk with
  | None => ret (None, None)
  | Some r =>
      match b64decode delta with
      | None => raise (ValueError "Incorrect padding")
      | Some append_values =>
          f <- get_formatted r ;;
          match f_audio f with
          | AudioChunks cs =>
              update r (with_formatted
                          (Some (with_audio
                                   (AudioChunks (cs ++ [append_values])%list) f))) ;;
              ret (Some r, Some (DAudio append_values))
          | AudioBuf _ =>
              raise (TypeError "can't concat list to bytearray")
          end
      end
  end.

Definition _process_text_delta (item_id : string) (content_index : Z)
  (delta : string) : St handler_result :=
  lk <- gets item_lookup ;;
  match dict_get item_id lk with
  | None =>
      raise (PyException
               ("response.text.delta: Item " ++ quoted item_id ++ " not found"))
  | Some r =>
      p <- get_content_part r content_index ;;
      let '(cs, pos, c) := p in
      match c_text c with
      | None => raise (KeyError "text")
      | Some old =>
          update r (with_content
                      (Some (list_set cs pos
                               (with_c_text (Some (old ++ delta)) c)))) ;;
          fmt_update r (fun f => with_text (f_text f ++ delta) f) ;;
          ret (Some r, Some (DText delta))
      end
  end.

Definition _process_function_call_arguments_delta (item_id : string)
  (delta : string) : St handler_result :=
  lk <- gets item_lookup ;;
  match dict_get item_id lk with
  | None =>
      raise (PyException
               ("response.function_call_arguments.delta: Item "
                  ++ quoted item_id ++ " not found"))
  | Some r =>
      it <- load r ;;
      match i_arguments it with
      | None => raise (KeyError "arguments")
      | Some old =>
          update r (with_arguments (Some (old ++ delta))) ;;
          f <- get_formatted r ;;
          match f_tool f with
          | None => raise (KeyError "tool")
          | Some t =>
              update r (with_formatted
                          (Some (with_tool
                                   (Some (with_t_arguments
                                            (t_arguments t ++ delta) t)) f))) ;;
              ret (Some r, Some (DArguments delta))
          end
      end
  end.

Definition arity_error : exn :=
  TypeError "<lambda>() called with a wrong number of positional arguments".

(** [process_event(event, *args)]: the processor is looked up by the
    event type and applied to [self, event, *args]; only the processor
    of [input_audio_buffer.speech_stopped] takes an extra argument. *)
Definition process_event (ev : event) (args : list (option bytes))
  : St handler_result :=
  match ev with
  | UnknownEvent t =>
      raise (PyException ("Missing conversation event processor for " ++ t))
  | SpeechStopped item_id end_ms =>
      match args with
      | [input_audio_buffer] =>
          _process_speech_stopped item_id end_ms input_audio_buffer
      | _ => raise arity_error
      end
  | _ =>
      match args with
      | _ :: _ => raise arity_error
      | [] =>
          match ev with
          | ConversationItemCreated it => _process_item_created it
          | ConversationItemTruncated item_id _ end_ms =>
              _process_item_truncated item_id end_ms
          | ConversationItemDeleted item_id => _process_item_deleted item_id
          | InputAudioTranscriptionCompleted item_id ci transcript =>
              _process_input_audio_transcription_completed item_id ci transcript
          | SpeechStarted item_id start_ms =>
              _process_speech_started item_id start_ms
          | ResponseCreated r => _process_response_created r
          | ResponseOutputItemAdded response_id it =>
              _process_output_item_added response_id it
          | ResponseOutputItemDone it => _process_output_item_done it
          | ResponseContentPartAdded item_id part =>
              _process_content_part_added item_id part
          | ResponseAudioTranscriptDelta item_id ci delta =>
              _process_audio_transcript_delta item_id ci delta
          | ResponseAudioDelta item_id ci delta =>
              _process_audio_delta item_id ci delta
          | ResponseTextDelta item_id ci delta =>
              _process_text_delta item_id ci delta
          | ResponseFunctionCallArgumentsDelta item_id delta =>
              _process_function_call_arguments_delta item_id delta
          | SpeechStopped _ _ | UnknownEvent _ => raise arity_error
          end
      end
  end.

(** Processing a sequence of events in arrival order, each with its
    extra arguments; a failing call leaves its partial effect and the
    next event is processed all the same (the receive loop survives). *)
Fixpoint process_events (evs : list (event * list (option bytes)))
  (st : RealtimeConversation) : RealtimeConversation :=
  match evs with
  | [] => st
  | (ev, args) :: evs' => process_events evs' (snd (process_event ev args st))
  end.

End Store.

(** ** JSON-serialisable Python values *)

(** Values that travel in session configurations, tool arguments, tool
    results and the payload of sent events.  A float is kept as its
    [repr]; [PBytes] and [PObject] are values [json.dumps] rejects. *)
#[warnings="-register-all"]
Inductive pyval : Type :=
| PNone
| PBool (b : bool)
| PInt (z : Z)
| PFloat (repr : string)
| PStr (s : string)
| PBytes (b : bytes)
| PList (l : list pyval)
| PDict (d : list (string * pyval))
| PObject (tyname : string).

Definition hex_digit (n : nat) : string :=
  String (nth n ["0"; "1"; "2"; "3"; "4"; "5"; "6"; "7"; "8"; "9";
                 "a"; "b"; "c"; "d"; "e"; "f"]%char "0"%char) EmptyString.

(** Escape of one character inside a JSON string ([ensure_ascii=True]). *)
Definition json_escape_char (c : ascii) : string :=
  let n := nat_of_ascii c in
  if Nat.eqb n 34 then "\" ++ dq
  else if Nat.eqb n 92 then "\\"
  else if Nat.eqb n 10 then "\n"
  else if Nat.eqb n 13 then "\r"
  else if Nat.eqb n 9 then "\t"
  else if Nat.eqb n 8 then "\b"
  else if Nat.eqb n 12 then "\f"
  else if Nat.ltb n 32 || Nat.leb 127 n
       then "\u00" ++ hex_digit (Nat.div n 16) ++ hex_digit (Nat.modulo n 16)
       else String c EmptyString.

Fixpoint json_escape (s : string) : string :=
  match s with
  | EmptyString => EmptyString
  | String c s' => json_escape_char c ++ json_escape s'
  end.

Definition json_string (s : string) : string := dq ++ json_escape s ++ dq.

Definition not_serializable (ty : string) : exn :=
  TypeError ("Object of type " ++ ty ++ " is not JSON serializable").

(** [json.dumps(v)] with the default separators. *)
Fixpoint json_dumps (v : pyval) : outcome string :=
  match v with
  | PNone => Ok "null"
  | PBool true => Ok "true"
  | PBool false => Ok "false"
  | PInt z => Ok (NilZero.string_of_int (Z.to_int z))
  | PFloat r => Ok r
  | PStr s => Ok (json_string s)
  | PBytes _ => Raise (not_serializable "bytes")
  | PObject ty => Raise (not_serializable ty)
  | PList l =>
      let fix elems (l : list pyval) : outcome string :=
        match l with
        | [] => Ok EmptyString
        | [x] => json_dumps x
        | x :: l' =>
            match json_dumps x with
            | Raise e => Raise e
            | Ok sx =>
                match elems l' with
                | Raise e => Raise e
                | Ok sl => Ok (sx ++ ", " ++ sl)
                end
            end
        end in
      match elems l with
      | Raise e => Raise e
      | Ok s => Ok ("[" ++ s ++ "]")
      end
  | PDict d =>
      let fix members (d : list (string * pyval)) : outcome string :=
        match d with
        | [] => Ok EmptyString
        | (k, x) :: d' =>
            match json_dumps x with
            | Raise e => Raise e
            | Ok sx =>
                match d' with
                | [] => Ok (json_string k ++ ": " ++ sx)
                | _ =>
                    match members d' with
                    | Raise e => Raise e
                    | Ok sd => Ok (json_string k ++ ": " ++ sx ++ ", " ++ sd)
                    end
                end
            end
        end in
      match members d with
      | Raise e => Raise e
      | Ok s => Ok ("{" ++ s ++ "}")
      end
  end.

(** ** Floating-point arithmetic of [cancel_response] *)

(** [float(z)]: exact below 2^53 in magnitude, rounded to nearest beyond. *)
Definition Z2float (z : Z) : float :=
  SF2Prim (binary_normalize prec emax z 0 false).

(** [a / b] on integers: true division, a binary64 result. *)
Definition py_truediv (a b : Z) : outcome float :=
  if b =? 0 then Raise (ZeroDivisionError "division by zero")
  else Ok (PrimFloat.div (Z2float a) (Z2float b)).

(** [int(x)] on a float: truncation towards zero. *)
Definition py_int (x : float) : outcome Z :=
  match Prim2SF x with
  | S754_zero _ => Ok 0
  | S754_finite s m e =>
      let mag := if 0 <=? e then Z.pos m * 2 ^ e else Z.pos m / 2 ^ (- e) in
      Ok (if s then - mag else mag)
  | S754_infinity _ =>
      Raise (ValueError "cannot convert float infinity to integer")
  | S754_nan => Raise (ValueError "cannot convert float NaN to integer")
  end.

(** ** Subscription tables ([defaultdict(list)]) *)

(** [d[k]] on a [defaultdict(list)]: reading a missing key inserts it
    with an empty list. *)
Definition touch {V} (k : string) (d : dict (list V)) : dict (list V) :=
  match dict_get k d with
  | Some _ => d
  | None => dict_set k [] d
  end.

(** The handlers subscribed under [k]. *)
Definition subscribers {V} (k : string) (d : dict (list V)) : list V :=
  match dict_get k d with
  | Some l => l
  | None => []
  end.

(** ** Transport ([RealtimeAPI]) and client ([RealtimeClient]) state *)

(** Handlers subscribed on the transport's event bus: the client's own
    methods, and handlers of the application (opaque, numbered). *)
Inductive handler : Type :=
| h_log_event
| h_on_session_created
| h_process_event
| h_on_speech_started
| h_on_speech_stopped
| h_on_item_created
| h_on_output_item_done
| h_external (n : nat).

(** [inspect.iscoroutinefunction]: of the client's own handlers only
    [_on_output_item_done] is declared [async]. *)
Definition iscoroutinefunction (h : handler) : bool :=
  match h with
  | h_on_output_item_done => true
  | _ => false
  end.

(** What is dispatched on the transport's bus: a sent event (its name and
    payload) or a received server event. *)
Inductive bus_event : Type :=
| ClientEvent (name : string) (data : dict pyval)
| ServerEvent (ev : event).

Definition bus_event_type (e : bus_event) : string :=
  match e with
  | ClientEvent name _ => name
  | ServerEvent ev => event_type ev
  end.

(** The store's view of a dispatched event: a sent event has a type no
    processor is registered for. *)
Definition to_event (e : bus_event) : event :=
  match e with
  | ClientEvent name _ => UnknownEvent name
  | ServerEvent ev => ev
  end.

(** Payloads the client dispatches to the application. *)
Inductive app_payload : Type :=
| RealtimeEvent (source : string) (e : bus_event)
| ConversationUpdated (it : ref) (delta : option delta_t)
| ItemAppended (it : option ref)
| ItemCompleted (it : ref)
| Interrupted (e : bus_event).

(** An entry of the tool registry.  The handler takes the keyword
    arguments and returns its result or raises. *)
Record tool_config : Type := {
  definition : dict pyval;
  tool_handler : dict pyval -> outcome pyval
}.

Record RealtimeAPI : Type := {
  ws : option string;
  api_event_handlers : dict (list handler);
  sent : list (string * dict pyval)
}.

Record RealtimeClient : Type := {
  event_handlers : dict (list nat);
  dispatched : list (string * app_payload);
  session_config : dict pyval;
  session_created : bool;
  tools : dict tool_config;
  input_audio_buffer : bytes;
  realtime : RealtimeAPI;
  conversation : RealtimeConversation;
  tasks : list (handler * bus_event)
}.

Definition set_ws (w : option string) (a : RealtimeAPI) : RealtimeAPI :=
  {| ws := w; api_event_handlers := api_event_handlers a; sent := sent a |}.

Definition set_api_event_handlers (d : dict (list handler)) (a : RealtimeAPI)
  : RealtimeAPI :=
  {| ws := ws a; api_event_handlers := d; sent := sent a |}.

Definition set_sent (l : list (string * dict pyval)) (a : RealtimeAPI)
  : RealtimeAPI :=
  {| ws := ws a; api_event_handlers := api_event_handlers a; sent := l |}.

Definition set_dispatched (l : list (string * app_payload)) (c : RealtimeClient)
  : RealtimeClient :=
  {| event_handlers := event_handlers c; dispatched := l;
     session_config := session_config c; session_created := session_created c;
     tools := tools c; input_audio_buffer := input_audio_buffer c;
     realtime := realtime c; conversation := conversation c;
     tasks := tasks c |}.

Definition set_event_handlers (d : dict (list nat)) (c : RealtimeClient)
  : RealtimeClient :=
  {| event_handlers := d; dispatched := dispatched c;
     session_config := session_config c; session_created := session_created c;
     tools := tools c; input_audio_buffer := input_audio_buffer c;
     realtime := realtime c; conversation := conversation c;
     tasks := tasks c |}.

Definition set_session_config (d : dict pyval) (c : RealtimeClient)
  : RealtimeClient :=
  {| event_handlers := event_handlers c; dispatched := dispatched c;
     session_config := d; session_created := session_created c;
     tools := tools c; input_audio_buffer := input_audio_buffer c;
     realtime := realtime c; conversation := conversation c;
     tasks := tasks c |}.

Definition set_session_created (b : bool) (c : RealtimeClient)
  : RealtimeClient :=
  {| event_handlers := event_handlers c; dispatched := dispatched c;
     session_config := session_config c; session_created := b;
     tools := tools c; input_audio_buffer := input_audio_buffer c;
     realtime := realtime c; conversation := conversation c;
     tasks := tasks c |}.

Definition set_tools (d : dict tool_config) (c : RealtimeClient)
  : RealtimeClient :=
  {| event_handlers := event_handlers c; dispatched := dispatched c;
     session_config := session_config c; session_created := session_created c;
     tools := d; input_audio_buffer := input_audio_buffer c;
     realtime := realtime c; conversation := conversation c;
     tasks := tasks c |}.

Definition set_input_audio_buffer (b : bytes) (c : RealtimeClient)
  : RealtimeClient :=
  {| event_handlers := event_handlers c; dispatched := dispatched c;
     session_config := session_config c; session_created := session_created c;
     tools := tools c; input_audio_buffer := b;
     realtime := realtime c; conversation := conversation c;
     tasks := tasks c |}.

Definition set_realtime (a : RealtimeAPI) (c : RealtimeClient)
  : RealtimeClient :=
  {| event_handlers := event_handlers c; dispatched := dispatched c;
     session_config := session_config c; session_created := session_created c;
     tools := tools c; input_audio_buffer := input_audio_buffer c;
     realtime := a; conversation := conversation c;
     tasks := tasks c |}.

Definition set_conversation (st : RealtimeConversation) (c : RealtimeClient)
  : RealtimeClient :=
  {| event_handlers := event_handlers c; dispatched := dispatched c;
     session_config := session_config c; session_created := session_created c;
     tools := tools c; input_audio_buffer := input_audio_buffer c;
     realtime := realtime c; conversation := st;
     tasks := tasks c |}.

Definition set_tasks (l : list (handler * bus_event)) (c : RealtimeClient)
  : RealtimeClient :=
  {| event_handlers := event_handlers c; dispatched := dispatched c;
     session_config := session_config c; session_created := session_created c;
     tools := tools c; input_audio_buffer := input_audio_buffer c;
     realtime := realtime c; conversation := conversation c;
     tasks := l |}.

Definition nl : string := String "010"%char EmptyString.

Definition default_instructions : string :=
  "System settings:" ++ nl ++ "Tool use: enabled." ++ nl ++ nl
  ++ "Instructions:" ++ nl
  ++ "- You are a Voice agent called Troy Williams responsible for helping Troy Williams in thier Dissertations Writing" ++ nl
  ++ "- You will always answer from knowledgebase you have access to via get_answer_from_knowledgebase other than if someone asks you to search the internet or perform a task that is possible with the tools you have access to" ++ nl
  ++ "- It is okay to ask the user questions" ++ nl
  ++ "- Use appropriate tools, These are tools availble to you [get_answer_from_knowledgebase,execute_python_file, open_browser,create_python_file,draft_linkedin_post,query_stock_price, draw_plotly_chart, generate_image, internet_search]" ++ nl
  ++ "- Be open to exploration and conversation" ++ nl
  ++ "- Personality:" ++ nl
  ++ "- Be upbeat and genuine" ++ nl
  ++ "- Try speaking quickly as if excited" ++ nl.

Definition default_session_config : dict pyval :=
  [ ("modalities", PList [PStr "text"; PStr "audio"]);
    ("instructions", PStr default_instructions);
    ("voice", PStr "shimmer");
    ("input_audio_format", PStr "pcm16");
    ("output_audio_format", PStr "pcm16");
    ("input_audio_transcription", PDict [("model", PStr "whisper-1")]);
    ("turn_detection", PDict [("type", PStr "server_vad")]);
    ("tools", PList []);
    ("tool_choice", PStr "auto");
    ("temperature", PFloat "0.8");
    ("max_response_output_tokens", PInt 4096) ].

(** The subscriptions [_add_api_event_handlers] installs, in order. *)
Definition api_subscriptions : list (string * handler) :=
  [ ("client.*", h_log_event);
    ("server.*", h_log_event);
    ("server.session.created", h_on_session_created);
    ("server.response.created", h_process_event);
    ("server.response.output_item.added", h_process_event);
    ("server.response.content_part.added", h_process_event);
    ("server.input_audio_buffer.speech_started", h_on_speech_started);
    ("server.input_audio_buffer.speech_stopped", h_on_speech_stopped);
    ("server.conversation.item.created", h_on_item_created);
    ("server.conversation.item.truncated", h_process_event);
    ("server.conversation.item.deleted", h_process_event);
    ("server.conversation.item.input_audio_transcription.completed",
     h_process_event);
    ("server.response.audio_transcript.delta", h_process_event);
    ("server.response.audio.delta", h_process_event);
    ("server.response.text.delta", h_process_event);
    ("server.response.function_call_arguments.delta", h_process_event);
    ("server.response.output_item.done", h_on_output_item_done) ].

(** [type(v).__name__] *)
Definition type_name (v : pyval) : string :=
  match v with
  | PNone => "NoneType"
  | PBool _ => "bool"
  | PInt _ => "int"
  | PFloat _ => "float"
  | PStr _ => "str"
  | PBytes _ => "bytes"
  | PList _ => "list"
  | PDict _ => "dict"
  | PObject ty => ty
  end.

Definition is_none (v : pyval) : bool :=
  match v with PNone => true | _ => false end.


(** ** Client operations *)

Section Client.

Variable default_frequency : Z.
Variable b64decode : string -> option bytes.

(** [json.loads], raising [json.JSONDecodeError] on malformed text. *)
Variable json_loads : string -> outcome pyval.

Definition Cl := M RealtimeClient.

(** A coroutine object holds the body of an [async def]; the body runs
    when the object is awaited, and not at all when the call's result is
    dropped. *)
Definition coroutine (A : Type) : Type := Cl A.
Definition await {A} (co : coroutine A) : Cl A := co.
Definition not_awaited {A} (co : coroutine A) : Cl unit := ret tt.

Definition lift_conversation {A} (m : M RealtimeConversation A) : Cl A :=
  fun c => let (o, st) := m (conversation c) in (o, set_conversation st c).

Definition lift_outcome {A} (o : outcome A) : Cl A :=
  match o with
  | Ok a => ret a
  | Raise e => raise e
  end.

(** [try: body except Exception as e: handle e] *)
Definition try_except {A} (body : Cl A) (handle : exn -> Cl A) : Cl A :=
  fun c => match body c with
           | (Ok a, c') => (Ok a, c')
           | (Raise e, c') => handle e c'
           end.

(** *** Event buses *)

(** [self.dispatch] on the client's own bus: the subscribers are handlers
    of the application; the call is recorded. *)
Definition dispatch (event_name : string) (payload : app_payload) : Cl unit :=
  modify (fun c =>
    set_dispatched (dispatched c ++ [(event_name, payload)])%list
      (set_event_handlers (touch event_name (event_handlers c)) c)).

Definition on (event_name : string) (h : handler) : Cl unit :=
  modify (fun c =>
    let a := realtime c in
    let old := match dict_get event_name (api_event_handlers a) with
               | Some l => l
               | None => []
               end in
    set_realtime
      (set_api_event_handlers
         (dict_set event_name (old ++ [h])%list (api_event_handlers a)) a) c).

Definition clear_event_handlers : Cl unit :=
  modify (fun c => set_realtime (set_api_event_handlers [] (realtime c)) c).

Definition is_connected (c : RealtimeClient) : bool :=
  match ws (realtime c) with Some _ => true | None => false end.

(** *** The client's handlers of transport events *)

Definition _log_event (e : bus_event) : Cl unit :=
  let source :=
    if prefix "client." (bus_event_type e) then "client" else "server" in
  dispatch "realtime.event" (RealtimeEvent source e).

Definition _on_session_created (e : bus_event) : Cl unit :=
  modify (set_session_created true).

Definition _process_event (e : bus_event) (args : list (option bytes))
  : Cl handler_result :=
  r <- lift_conversation
         (process_event default_frequency b64decode (to_event e) args) ;;
  match fst r with
  | Some it => dispatch "conversation.updated" (ConversationUpdated it (snd r))
  | None => ret tt
  end ;;
  ret r.

Definition _on_speech_started (e : bus_event) : Cl unit :=
  _process_event e [] ;;
  dispatch "conversation.interrupted" (Interrupted e).

Definition _on_speech_stopped (e : bus_event) : Cl unit :=
  buf <- gets input_audio_buffer ;;
  _process_event e [Some buf] ;;
  ret tt.

(** [item["status"] == "completed"] on the object at [r]. *)
Definition status_completed (r : ref) : Cl bool :=
  it <- lift_conversation (load r) ;;
  match i_status it with
  | Some s => ret (String.eqb s "completed")
  | None => raise (KeyError "status")
  end.

Definition _on_item_created (e : bus_event) : Cl unit :=
  r <- _process_event e [] ;;
  dispatch "conversation.item.appended" (ItemAppended (fst r)) ;;
  match fst r with
  | Some it =>
      b <- status_completed it ;;
      when b (dispatch "conversation.item.completed" (ItemCompleted it))
  | None => ret tt
  end.

(** A handler called in line by the transport's [dispatch]. *)
Definition run_handler (h : handler) (e : bus_event) : Cl unit :=
  match h with
  | h_log_event => _log_event e
  | h_on_session_created => _on_session_created e
  | h_process_event => _process_event e [] ;; ret tt
  | h_on_speech_started => _on_speech_started e
  | h_on_speech_stopped => _on_speech_stopped e
  | h_on_item_created => _on_item_created e
  | h_on_output_item_done => ret tt
  | h_external _ => ret tt
  end.

(** [self.realtime.dispatch]: the list under the event name is read (a
    missing name is inserted with no handler), coroutine handlers become
    tasks that run later, the others are called in registration order. *)
Definition realtime_dispatch (event_name : string) (e : bus_event) : Cl unit :=
  c <- get ;;
  let hs := subscribers event_name (api_event_handlers (realtime c)) in
  modify (fun c =>
    set_realtime
      (set_api_event_handlers
         (touch event_name (api_event_handlers (realtime c))) (realtime c)) c) ;;
  for_each hs (fun h =>
    if iscoroutinefunction h
    then modify (fun c => set_tasks (tasks c ++ [(h, e)])%list c)
    else run_handler h e).

(** [self.realtime.send(event_name, data)] *)
Definition send (event_name : string) (data : dict pyval) : coroutine unit :=
  c <- get ;;
  if negb (is_connected c)
  then raise (PyException "RealtimeAPI is not connected")
  else
    let e := ClientEvent event_name data in
    realtime_dispatch ("client." ++ event_name) e ;;
    realtime_dispatch "client.*" e ;;
    modify (fun c =>
      set_realtime (set_sent (sent (realtime c) ++ [(event_name, data)])%list
                      (realtime c)) c).

(** [self.realtime.disconnect()] *)
Definition realtime_disconnect : coroutine unit :=
  c <- get ;;
  match ws (realtime c) with
  | Some _ => modify (fun c => set_realtime (set_ws None (realtime c)) c)
  | None => ret tt
  end.

(** *** Configuration and lifecycle *)

Definition _reset_config : Cl bool :=
  modify (set_session_created false) ;;
  modify (set_tools []) ;;
  modify (set_session_config default_session_config) ;;
  modify (set_input_audio_buffer []) ;;
  ret true.

Definition _add_api_event_handlers : Cl unit :=
  for_each api_subscriptions (fun p => on (fst p) (snd p)).

Definition disconnect : coroutine unit :=
  modify (set_session_created false) ;;
  lift_conversation (modify clear) ;;
  c <- get ;;
  if is_connected c then await realtime_disconnect else ret tt.

Definition reset : Cl bool :=
  not_awaited disconnect ;;
  clear_event_handlers ;;
  _reset_config ;;
  _add_api_event_handlers ;;
  ret true.

(** [RealtimeClient()] *)
Definition RealtimeClient_new : RealtimeClient :=
  let c0 :=
    {| event_handlers := []; dispatched := [];
       session_config := []; session_created := false;
       tools := []; input_audio_buffer := [];
       realtime := {| ws := None; api_event_handlers := []; sent := [] |};
       conversation := RealtimeConversation_init;
       tasks := [] |} in
  snd ((_reset_config ;; _add_api_event_handlers) c0).

Definition get_turn_detection_type : Cl pyval :=
  cfg <- gets session_config ;;
  match dict_get "turn_detection" cfg with
  | None => ret PNone
  | Some (PDict d) =>
      ret (match dict_get "type" d with Some v => v | None => PNone end)
  | Some v =>
      raise (AttributeError
               ("'" ++ type_name v ++ "' object has no attribute 'get'"))
  end.

(** *** Application actions *)

Definition delete_item (id : string) : coroutine bool :=
  await (send "conversation.item.delete" [("item_id", PStr id)]) ;;
  ret true.

Definition create_conversation_item (it : pyval) : coroutine unit :=
  await (send "conversation.item.create" [("item", it)]).

Definition create_response : coroutine bool :=
  t <- get_turn_detection_type ;;
  buf <- gets input_audio_buffer ;;
  (if is_none t && (0 <? Z.of_nat (List.length buf))
   then
     await (send "input_audio_buffer.commit" []) ;;
     buf <- gets input_audio_buffer ;;
     lift_conversation (modify (queue_input_audio (Some buf))) ;;
     modify (set_input_audio_buffer [])
   else ret tt) ;;
  await (send "response.create" []) ;;
  ret true.

(** [int((sample_count / default_frequency) * 1000)] *)
Definition audio_end_ms_of (sample_count : Z) : outcome Z :=
  match py_truediv sample_count default_frequency with
  | Raise e => Raise e
  | Ok q => py_int (PrimFloat.mul q (Z2float 1000))
  end.





(** *** Tool calls *)

Definition function_call_output (call_id output : string) : dict pyval :=
  [("item", PDict [("type", PStr "function_call_output");
                   ("call_id", PStr call_id);
                   ("output", PStr output)])].

Definition _call_tool (tool : tool_t) : coroutine unit :=
  try_except
    (json_arguments <- lift_outcome (json_loads (t_arguments tool)) ;;
     tls <- gets tools ;;
     match dict_get (t_name tool) tls with
     | None =>
         raise (PyException
                  ("Tool " ++ quoted (t_name tool) ++ " has not been added"))
     | Some tc =>
         kwargs <- match json_arguments with
                   | PDict d => ret d
                   | v => raise (TypeError
                                   ("argument after ** must be a mapping, not "
                                      ++ type_name v))
                   end ;;
         result <- await (lift_outcome (tool_handler tc kwargs)) ;;
         output <- lift_outcome (json_dumps result) ;;
         await (send "conversation.item.create"
                  (function_call_output (t_call_id tool) output))
     end)
    (fun e =>
       output <- lift_outcome
                   (json_dumps (PDict [("error", PStr (exn_str e))])) ;;
       await (send "conversation.item.create"
                (function_call_output (t_call_id tool) output))) ;;
  await create_response ;;
  ret tt.

Definition _on_output_item_done (e : bus_event) : coroutine unit :=
  r <- _process_event e [] ;;
  match fst r with
  | None => ret tt
  | Some it =>
      b <- status_completed it ;;
      when b (dispatch "conversation.item.completed" (ItemCompleted it)) ;;
      obj <- lift_conversation (load it) ;;
      match i_formatted obj with
      | Some f =>
          match f_tool f with
          | Some tool => await (_call_tool tool)
          | None => ret tt
          end
      | None => ret tt
      end
  end.

End Client.

(** ** Reference instances and specification-side definitions *)

(** Value of one character of the base64 alphabet. *)
Definition b64_value (c : ascii) : option N :=
  let n := N_of_ascii c in
  (if (65 <=? n) && (n <=? 90) then Some (n - 65)
   else if (97 <=? n) && (n <=? 122) then Some (n - 71)
   else if (48 <=? n) && (n <=? 57) then Some (n + 4)
   else if n =? 43 then Some 62
   else if n =? 47 then Some 63
   else None)%N.

Definition byte_of_N (n : N) : byte :=
  match Byte.of_N n with
  | Some b => b
  | None => x00
  end.

Definition is_pad (c : ascii) : bool := Ascii.eqb c "="%char.

(** Decoder for canonical (padded, alphabet-only) base64 text, used to
    instantiate [b64decode] in examples. *)
Fixpoint b64decode_canonical (s : string) : option bytes :=
  match s with
  | EmptyString => Some []
  | String a (String b (String c (String d rest))) =>
      match b64_value a, b64_value b with
      | Some va, Some vb =>
          let b0 := byte_of_N (va * 4 + vb / 16) in
          if is_pad c then
            if is_pad d && String.eqb rest EmptyString then Some [b0] else None
          else
            match b64_value c with
            | None => None
            | Some vc =>
                let b1 := byte_of_N ((vb mod 16) * 16 + vc / 4) in
                if is_pad d then
                  if String.eqb rest EmptyString then Some [b0; b1] else None
                else
                  match b64_value d, b64decode_canonical rest with
                  | Some vd, Some tl =>
                      Some (b0 :: b1 :: byte_of_N ((vc mod 4) * 64 + vd) :: tl)
                  | _, _ => None
                  end
            end
      | _, _ => None
      end
  | _ => None
  end%N.


(** An item's audio as one concatenated byte stream. *)
Definition audio_bytes (a : audio_t) : bytes :=
  match a with
  | AudioChunks cs => List.concat cs
  | AudioBuf b => b
  end.

(** ** Invariants and side conditions used in the statements *)

(** The index and the sequence hold the same objects in the same order,
    the keys of the index are distinct, and every key is the identifier
    of the object it maps to. *)
Definition store_inv (st : RealtimeConversation) : Prop :=
  dict_values (item_lookup st) = items st
  /\ NoDup (dict_keys (item_lookup st))
  /\ (forall k r, In (k, r) (item_lookup st) ->
        exists it, nth_error (heap st) r = Some it /\ i_id it = k).

(** No speech entry is queued for [id], or the queued entry already has
    its audio slice. *)
Definition speech_ready (id : string) (st : RealtimeConversation) : bool :=
  match dict_get id (queued_speech_items st) with
  | Some sp => match audio sp with Some _ => true | None => false end
  | None => true
  end.

(** Every [text] or [input_text] content part carries its text. *)
Definition texts_ready (it : item) : bool :=
  match i_content it with
  | Some cs =>
      forallb (fun c => match c_text c with Some _ => true | None => false end)
        (filter (fun c => is_text_type (c_type c)) cs)
  | None => true
  end.

(** The keys the item's variant reads are present. *)
Definition variant_ready (it : item) : bool :=
  if String.eqb (i_type it) "message" then
    match i_role it with Some _ => true | None => false end
  else if String.eqb (i_type it) "function_call" then
    match i_name it, i_call_id it with
    | Some _, Some _ => true
    | _, _ => false
    end
  else if String.eqb (i_type it) "function_call_output" then
    match i_output it with Some _ => true | None => false end
  else true.

Definition created_ready (st : RealtimeConversation) (it : item) : bool :=
  speech_ready (i_id it) st && texts_ready it && variant_ready it.

(** The transport's subscriptions are the ones the client installs:
    under every event name, the handlers are those of a new client. *)
Definition engine_subscriptions (c : RealtimeClient) : Prop :=
  forall name,
    subscribers name (api_event_handlers (realtime c))
    = subscribers name (api_event_handlers (realtime RealtimeClient_new)).

(** [a] carries the keys of the payload [b]: everything but [status] and
    [formatted], which the store sets itself. *)
Definition same_payload (a b : item) : Prop :=
  i_id a = i_id b /\ i_type a = i_type b /\ i_role a = i_role b
  /\ i_content a = i_content b /\ i_name a = i_name b
  /\ i_call_id a = i_call_id b /\ i_arguments a = i_arguments b
  /\ i_output a = i_output b.

(** Hoare-style judgement on a monadic computation: from a state
    satisfying [P], the outcome and the final state satisfy [Q]. *)
Definition triple {S A} (P : S -> Prop) (m : M S A)
  (Q : outcome A -> S -> Prop) : Prop :=
  forall s, P s -> Q (fst (m s)) (snd (m s)).

(** [m] keeps [P], whether it returns or raises. *)
Definition keeps {S A} (P : S -> Prop) (m : M S A) : Prop :=
  triple P m (fun _ s => P s).

(** [m] keeps [P] and returns. *)
Definition succeeds {S A} (P : S -> Prop) (m : M S A) : Prop :=
  triple P m (fun o s => P s /\ is_ok o = true).

(** The state while [_process_item_created] runs on payload [it]: the new
    object is the last cell of the heap (after the cells [h0] that were
    there before), it carries the payload and a [formatted] dictionary
    [f], the index and the sequence are [lk] and [its], and [T] relates
    [f] to the queued transcripts. *)
Definition creating (h0 : list item) (it : item) (lk : dict ref)
  (its : list ref) (T : formatted_t -> dict string -> Prop)
  (s : RealtimeConversation) : Prop :=
  exists cur f,
    heap s = (h0 ++ [cur])%list /\ same_payload cur it
    /\ i_formatted cur = Some f
    /\ item_lookup s = lk /\ items s = its
    /\ T f (queued_transcript_items s).

(** One step of the handler: it returns, and takes [creating] with [T]
    to [creating] with [T']. *)
Definition creating_step (h0 : list item) (it : item) (lk : dict ref)
  (its : list ref) (T T' : formatted_t -> dict string -> Prop)
  {A} (m : M RealtimeConversation A) : Prop :=
  triple (creating h0 it lk its T) m
    (fun o s => creating h0 it lk its T' s /\ is_ok o = true).

(** The text a content part contributes to [formatted["text"]]. *)
Definition part_text (c : content_part) : string :=
  match c_text c with Some t => t | None => EmptyString end.

(** [formatted["text"]] after the seeding loop started from [acc]. *)
Definition seed_text (acc : string) (cs : list content_part) : string :=
  fold_left (fun a c => a ++ part_text c)
    (filter (fun c => is_text_type (c_type c)) cs) acc.

Definition seeded_text (it : item) : string :=
  match i_content it with
  | Some cs => seed_text EmptyString cs
  | None => EmptyString
  end.

(** [m] returns nothing but [v]. *)
Definition only_returns {S A} (v : A) (m : M S A) : Prop :=
  forall s x, fst (m s) = Ok x -> x = v.

(** ** Payloads used in the examples *)

Definition message_item (id role : string) (content : list content_part)
  : item :=
  {| i_id := id; i_type := "message"; i_role := Some role;
     i_content := Some content; i_name := None; i_call_id := None;
     i_arguments := None; i_output := None; i_status := None;
     i_formatted := None |}.

Definition text_part (ty t : string) : content_part :=
  {| c_type := ty; c_text := Some t; c_transcript := None; c_audio := None |}.

Definition audio_part (transcript : string) : content_part :=
  {| c_type := "audio"; c_text := None; c_transcript := Some transcript;
     c_audio := None |}.

(** Three events: two items are created, then the first is deleted. *)
Definition two_created_one_deleted : list (event * list (option bytes)) :=
  [ (ConversationItemCreated (message_item "item_A" "user" [text_part "input_text" "hi"]), []);
    (ConversationItemCreated (message_item "item_B" "assistant" []), []);
    (ConversationItemDeleted "item_A", []) ].

(** A store holding one user message. *)
Definition item_A : item :=
  message_item "item_A" "user" [text_part "input_text" "hello"].

Definition store_with_item_A : RealtimeConversation :=
  process_events 24000 b64decode_canonical
    [(ConversationItemCreated item_A, [])] RealtimeConversation_init.

(** An assistant message with one audio part, and the store after its
    creation. *)
Definition item_Y : item :=
  message_item "item_Y" "assistant" [audio_part EmptyString].

Definition store_with_item_Y : RealtimeConversation :=
  process_events 24000 b64decode_canonical
    [(ConversationItemCreated item_Y, [])] RealtimeConversation_init.



(** The store after [speech_started] at 1200 ms for [item_S]. *)
Definition store_with_speech : RealtimeConversation :=
  process_events 24000 b64decode_canonical
    [(SpeechStarted "item_S" 1200, [])] RealtimeConversation_init.

(** A captured buffer of 60000 bytes. *)
Definition captured_buffer : bytes := repeat x01 (Z.to_nat 60000).

(** [creating] with no condition on the queued transcripts. *)
Definition shaped (h0 : list item) (it : item) (lk : dict ref)
  (its : list ref) (s : RealtimeConversation) : Prop :=
  creating h0 it lk its (fun _ _ => True) s.

(** The facts carried from block to block: the shape of the heap, the
    text and transcript of the new object, and the side-tables. *)
Definition created_facts (st : RealtimeConversation) (it : item)
  (txt tr : string) (qs_done qt_done : bool) (s : RealtimeConversation) : Prop :=
  exists cur f,
    heap s = (heap st ++ [cur])%list /\ i_formatted cur = Some f
    /\ f_text f = txt /\ f_transcript f = tr
    /\ (if qs_done then dict_get (i_id it) (queued_speech_items s) = None
        else queued_speech_items s = queued_speech_items st)
    /\ (if qt_done then dict_get (i_id it) (queued_transcript_items s) = None
        else queued_transcript_items s = queued_transcript_items st).


(** ** Client states used in the statements *)

(** The client after [send(event_name, data)] went through: the event was
    mirrored to the application as a [realtime.event] and written to the
    socket. *)
Definition after_send (event_name : string) (data : dict pyval)
  (c : RealtimeClient) : RealtimeClient :=
  let a := realtime c in
  set_realtime
    (set_sent (sent a ++ [(event_name, data)])%list
       (set_api_event_handlers
          (touch "client.*"
             (touch ("client." ++ event_name) (api_event_handlers a))) a))
    (set_dispatched
       (dispatched c
          ++ [("realtime.event",
               RealtimeEvent
                 (if prefix "client." event_name then "client" else "server")
                 (ClientEvent event_name data))])%list
       (set_event_handlers (touch "realtime.event" (event_handlers c)) c)).

(** The turn-detection lookup of [get_turn_detection_type] goes through:
    the key is absent or holds a mapping. *)
Definition turn_detection_lookup (c : RealtimeClient) : option pyval :=
  match dict_get "turn_detection" (session_config c) with
  | None => Some PNone
  | Some (PDict d) =>
      Some (match dict_get "type" d with Some v => v | None => PNone end)
  | Some _ => None
  end.

(** The client after [create_response()] went through with turn-detection
    type [t]. *)
Definition after_create_response (t : pyval) (c : RealtimeClient)
  : RealtimeClient :=
  if is_none t && (0 <? Z.of_nat (List.length (input_audio_buffer c)))
  then
    let c1 := after_send "input_audio_buffer.commit" [] c in
    after_send "response.create" []
      (set_input_audio_buffer []
         (set_conversation
            (queue_input_audio (Some (input_audio_buffer c1)) (conversation c1))
            c1))
  else after_send "response.create" [] c.


(** [json.dumps({"error": str(e)})] *)
Definition error_output (e : exn) : string :=
  "{" ++ json_string "error" ++ ": " ++ json_string (exn_str e) ++ "}".














(** Speech starts for [item_A] and its transcript is completed before the
    item is announced; no audio slice was attached to the speech entry
    (no [speech_stopped] yet, or one that came with an empty buffer). *)
Definition transcript_during_speech : list (event * list (option bytes)) :=
  [ (SpeechStarted "item_A" 1200, []);
    (InputAudioTranscriptionCompleted "item_A" 0 "hello", []) ].

Definition transcript_after_silent_speech
  : list (event * list (option bytes)) :=
  [ (SpeechStarted "item_A" 1200, []);
    (SpeechStopped "item_A" 1800, [Some []]);
    (InputAudioTranscriptionCompleted "item_A" 0 "hello", []) ].

(** * Properties *)

Unset Implicit Arguments.

(** ** Dictionaries *)

Lemma dict_get_set_same {V} (k : string) (v : V) (d : dict V) :
  dict_get k (dict_set k v d) = Some v.
Proof.
  induction d as [|[k' v'] d IH]; simpl.
  - now rewrite String.eqb_refl.
  - destruct (String.eqb k k') eqn:E; simpl; rewrite E; auto.
Qed.

Lemma dict_get_set_other {V} (k k0 : string) (v : V) (d : dict V) :
  k0 <> k -> dict_get k0 (dict_set k v d) = dict_get k0 d.
Proof.
  intros Hne. induction d as [|[k' v'] d IH]; simpl.
  - destruct (String.eqb k0 k) eqn:E; auto.
    apply String.eqb_eq in E. contradiction.
  - destruct (String.eqb k k') eqn:E; simpl.
    + apply String.eqb_eq in E. subst k'.
      destruct (String.eqb k0 k) eqn:E0; auto.
      apply String.eqb_eq in E0. contradiction.
    + now rewrite IH.
Qed.

Lemma dict_get_del_same {V} (k : string) (d : dict V) :
  dict_get k (dict_del k d) = None.
Proof.
  induction d as [|[k' v'] d IH]; simpl; auto.
  destruct (String.eqb k k') eqn:E; simpl; auto. now rewrite E.
Qed.

Lemma dict_get_del_other {V} (k k0 : string) (d : dict V) :
  k0 <> k -> dict_get k0 (dict_del k d) = dict_get k0 d.
Proof.
  intros Hne. induction d as [|[k' v'] d IH]; simpl; auto.
  destruct (String.eqb k k') eqn:E; simpl.
  - apply String.eqb_eq in E. subst k'.
    destruct (String.eqb k0 k) eqn:E0; auto.
    apply String.eqb_eq in E0. contradiction.
  - now rewrite IH.
Qed.

Lemma dict_mem_get {V} (k : string) (d : dict V) :
  dict_mem k d = false <-> dict_get k d = None.
Proof.
  unfold dict_mem. destruct (dict_get k d); split; congruence.
Qed.

(** ** Rules for the monad *)

Lemma triple_ret {S A} (P : S -> Prop) (a : A) (Q : outcome A -> S -> Prop) :
  (forall s, P s -> Q (Ok a) s) -> triple P (ret a) Q.
Proof. intros H s Hs. now apply H. Qed.

Lemma triple_raise {S A} (P : S -> Prop) (e : exn) (Q : outcome A -> S -> Prop) :
  (forall s, P s -> Q (Raise e) s) -> triple P (raise e) Q.
Proof. intros H s Hs. now apply H. Qed.

Lemma triple_bind {S A B} (P : S -> Prop) (R : A -> S -> Prop)
  (m : M S A) (k : A -> M S B) (Q : outcome B -> S -> Prop) :
  triple P m (fun o s => match o with
                         | Ok a => R a s
                         | Raise e => Q (Raise e) s
                         end) ->
  (forall a, triple (R a) (k a) Q) ->
  triple P (bind m k) Q.
Proof.
  intros Hm Hk s Hs. unfold bind. specialize (Hm s Hs).
  destruct (m s) as [[a|e] s']; simpl in *; auto.
  now apply Hk.
Qed.

Lemma triple_conseq {S A} (P P' : S -> Prop) (m : M S A)
  (Q Q' : outcome A -> S -> Prop) :
  triple P' m Q' ->
  (forall s, P s -> P' s) ->
  (forall o s, Q' o s -> Q o s) ->
  triple P m Q.
Proof. intros H HP HQ s Hs. apply HQ, H, HP, Hs. Qed.

Lemma keeps_ret {S A} (P : S -> Prop) (a : A) : keeps P (ret a).
Proof. now intros s Hs. Qed.

Lemma keeps_raise {S A} (P : S -> Prop) (e : exn) : keeps P (@raise S A e).
Proof. now intros s Hs. Qed.

Lemma keeps_gets {S A} (P : S -> Prop) (f : S -> A) : keeps P (gets f).
Proof. now intros s Hs. Qed.

Lemma keeps_get {S} (P : S -> Prop) : keeps P (@get S).
Proof. now intros s Hs. Qed.

Lemma keeps_modify {S} (P : S -> Prop) (f : S -> S) :
  (forall s, P s -> P (f s)) -> keeps P (modify f).
Proof. intros H s Hs. now apply H. Qed.

Lemma keeps_bind {S A B} (P : S -> Prop) (m : M S A) (k : A -> M S B) :
  keeps P m -> (forall a, keeps P (k a)) -> keeps P (bind m k).
Proof.
  intros Hm Hk. apply triple_bind with (R := fun _ s => P s).
  - intros s Hs. specialize (Hm s Hs). now destruct (fst (m s)).
  - exact Hk.
Qed.

Lemma keeps_when {S} (P : S -> Prop) (b : bool) (m : M S unit) :
  keeps P m -> keeps P (when b m).
Proof. destruct b; simpl; auto using keeps_ret. Qed.

Lemma keeps_for_each {S A} (P : S -> Prop) (l : list A) (body : A -> M S unit) :
  (forall x, In x l -> keeps P (body x)) -> keeps P (for_each l body).
Proof.
  induction l as [|x l IH]; simpl; intros H.
  - apply keeps_ret.
  - apply keeps_bind; [apply H; now left|].
    intros _. apply IH. intros y Hy. apply H. now right.
Qed.

Lemma succeeds_ret {S A} (P : S -> Prop) (a : A) : succeeds P (ret a).
Proof. now intros s Hs. Qed.

Lemma succeeds_gets {S A} (P : S -> Prop) (f : S -> A) : succeeds P (gets f).
Proof. now intros s Hs. Qed.

Lemma succeeds_modify {S} (P : S -> Prop) (f : S -> S) :
  (forall s, P s -> P (f s)) -> succeeds P (modify f).
Proof. intros H s Hs. split; [now apply H|reflexivity]. Qed.

Lemma succeeds_bind {S A B} (P : S -> Prop) (m : M S A) (k : A -> M S B) :
  succeeds P m -> (forall a, succeeds P (k a)) -> succeeds P (bind m k).
Proof.
  intros Hm Hk s Hs. unfold bind. specialize (Hm s Hs).
  destruct (m s) as [[a|e] s']; simpl in *.
  - apply Hk. tauto.
  - destruct Hm; discriminate.
Qed.

Lemma succeeds_when {S} (P : S -> Prop) (b : bool) (m : M S unit) :
  succeeds P m -> succeeds P (when b m).
Proof. destruct b; simpl; auto using succeeds_ret. Qed.

Lemma succeeds_for_each {S A} (P : S -> Prop) (l : list A)
  (body : A -> M S unit) :
  (forall x, In x l -> succeeds P (body x)) -> succeeds P (for_each l body).
Proof.
  induction l as [|x l IH]; simpl; intros H.
  - apply succeeds_ret.
  - apply succeeds_bind; [apply H; now left|].
    intros _. apply IH. intros y Hy. apply H. now right.
Qed.

(** The value of a computation that ends in [ret v]. *)
Lemma bind_ret_value {S A B} (m : M S A) (v : B) (s : S) :
  is_ok (fst (m s)) = true ->
  fst (bind m (fun _ => ret v) s) = Ok v /\ snd (bind m (fun _ => ret v) s) = snd (m s).
Proof.
  unfold bind. destruct (m s) as [[a|e] s']; simpl; intros H;
    [auto | discriminate].
Qed.

(** ** Lists and the heap *)

Lemma nth_error_list_upd_same {A} (l : list A) (n : nat) (f : A -> A) (x : A) :
  nth_error l n = Some x -> nth_error (list_upd l n f) n = Some (f x).
Proof.
  revert n. induction l as [|y l IH]; intros [|n]; simpl; try discriminate.
  - now intros [= ->].
  - apply IH.
Qed.

Lemma nth_error_list_upd_other {A} (l : list A) (n m : nat) (f : A -> A) :
  n <> m -> nth_error (list_upd l n f) m = nth_error l m.
Proof.
  revert n m. induction l as [|y l IH]; intros [|n] [|m] H; simpl; auto;
    try contradiction.
Qed.

Lemma length_list_upd {A} (l : list A) (n : nat) (f : A -> A) :
  List.length (list_upd l n f) = List.length l.
Proof.
  revert n. induction l as [|y l IH]; intros [|n]; simpl; auto.
Qed.

Lemma list_upd_last {A} (l : list A) (x : A) (f : A -> A) :
  list_upd (l ++ [x]) (List.length l) f = (l ++ [f x])%list.
Proof. induction l as [|y l IH]; simpl; [reflexivity | now rewrite IH]. Qed.

Lemma nth_error_last {A} (l : list A) (x : A) :
  nth_error (l ++ [x]) (List.length l) = Some x.
Proof. induction l as [|y l IH]; simpl; auto. Qed.

Lemma nth_error_before_last {A} (l : list A) (x : A) (n : nat) :
  (n < List.length l)%nat -> nth_error (l ++ [x]) n = nth_error l n.
Proof. intros H. now apply nth_error_app1. Qed.

Lemma only_returns_ret {S A} (v : A) : only_returns v (@ret S A v).
Proof. intros s x [= <-]. reflexivity. Qed.

Lemma only_returns_bind {S A B} (v : B) (m : M S A) (k : A -> M S B) :
  (forall a, only_returns v (k a)) -> only_returns v (bind m k).
Proof.
  intros Hk s x. unfold bind. destruct (m s) as [[a|e] s']; simpl.
  - apply Hk.
  - discriminate.
Qed.

Lemma dict_get_In {V} (k : string) (v : V) (d : dict V) :
  dict_get k d = Some v -> In (k, v) d.
Proof.
  induction d as [|[k' v'] d IH]; simpl; [discriminate|].
  destruct (String.eqb k k') eqn:E.
  - apply String.eqb_eq in E. subst k'. intros [= ->]. now left.
  - intros H. right. now apply IH.
Qed.

Lemma dict_get_None_notin {V} (k : string) (d : dict V) :
  dict_get k d = None -> ~ In k (dict_keys d).
Proof.
  induction d as [|[k' v'] d IH]; simpl; [tauto|].
  destruct (String.eqb k k') eqn:E; [discriminate|].
  apply String.eqb_neq in E. intros H [H1|H1]; [congruence|]. now apply IH.
Qed.

Lemma dict_set_absent {V} (k : string) (v : V) (d : dict V) :
  dict_get k d = None -> dict_set k v d = (d ++ [(k, v)])%list.
Proof.
  induction d as [|[k' v'] d IH]; simpl; [reflexivity|].
  destruct (String.eqb k k'); [discriminate|].
  intros H. now rewrite IH.
Qed.

Lemma dict_del_absent {V} (k : string) (d : dict V) :
  ~ In k (dict_keys d) -> dict_del k d = d.
Proof.
  induction d as [|[k' v'] d IH]; simpl; [reflexivity|].
  intros H. destruct (String.eqb k k') eqn:E.
  - apply String.eqb_eq in E. subst k'. tauto.
  - rewrite IH; tauto.
Qed.

Lemma dict_del_In {V} (k k0 : string) (v : V) (d : dict V) :
  In (k, v) (dict_del k0 d) -> In (k, v) d.
Proof.
  induction d as [|[k' v'] d IH]; simpl; [tauto|].
  destruct (String.eqb k0 k'); simpl; intuition.
Qed.

Lemma dict_del_keys_In {V} (k k0 : string) (d : dict V) :
  In k (dict_keys (dict_del k0 d)) -> In k (dict_keys d).
Proof.
  induction d as [|[k' v'] d IH]; simpl; [tauto|].
  destruct (String.eqb k0 k'); simpl; intuition.
Qed.

Lemma dict_del_NoDup {V} (k : string) (d : dict V) :
  NoDup (dict_keys d) -> NoDup (dict_keys (dict_del k d)).
Proof.
  induction d as [|[k' v'] d IH]; simpl; [auto|].
  intros H. inversion H as [|? ? Hn Hd]; subst.
  destruct (String.eqb k k'); simpl; auto.
  constructor; auto. intros Hin. apply Hn. eapply dict_del_keys_In; eauto.
Qed.

Lemma nth_error_list_upd {A} (l : list A) (n m : nat) (f : A -> A) :
  nth_error (list_upd l n f) m
  = option_map (fun x => if Nat.eqb n m then f x else x) (nth_error l m).
Proof.
  revert n m. induction l as [|y l IH]; intros [|n] [|m]; simpl; auto.
  now destruct (nth_error l m).
Qed.

(** ** Steps of [_process_item_created] *)

Ltac creating_split := refine (conj _ (conj _ (conj _ (conj _ (conj _ _))))).

Section Creating.

Variables (h0 : list item) (it : item) (lk : dict ref) (its : list ref).

Lemma same_payload_with_formatted (cur : item) (f : option formatted_t) :
  same_payload cur it -> same_payload (with_formatted f cur) it.
Proof. unfold same_payload. simpl. tauto. Qed.

Lemma same_payload_with_status (cur : item) (s : option string) :
  same_payload cur it -> same_payload (with_status s cur) it.
Proof. unfold same_payload. simpl. tauto. Qed.

Lemma creating_fmt_update (T T' : formatted_t -> dict string -> Prop)
  (g : formatted_t -> formatted_t) :
  (forall f d, T f d -> T' (g f) d) ->
  creating_step h0 it lk its T T' (fmt_update (List.length h0) g).
Proof.
  intros HT s (cur & f & Hh & Hp & Hf & Hlk & Hits & Ht).
  unfold fmt_update, get_formatted, load, update, bind, modify, ret.
  rewrite Hh, nth_error_last. simpl. rewrite Hf. simpl.
  rewrite Hh, list_upd_last. split; [|reflexivity].
  exists (with_formatted (Some (g f)) cur), (g f). simpl.
  creating_split; auto using same_payload_with_formatted.
Qed.

Lemma creating_update_status (T : formatted_t -> dict string -> Prop)
  (status : option string) :
  creating_step h0 it lk its T T (update (List.length h0) (with_status status)).
Proof.
  intros s (cur & f & Hh & Hp & Hf & Hlk & Hits & Ht).
  unfold update, modify. simpl. rewrite Hh, list_upd_last.
  split; [|reflexivity].
  exists (with_status status cur), f. simpl.
  creating_split; auto using same_payload_with_status.
Qed.

Lemma creating_modify (T T' : formatted_t -> dict string -> Prop)
  (F : RealtimeConversation -> RealtimeConversation) :
  (forall s, heap (F s) = heap s /\ item_lookup (F s) = item_lookup s
             /\ items (F s) = items s) ->
  (forall f s, T f (queued_transcript_items s) ->
               T' f (queued_transcript_items (F s))) ->
  creating_step h0 it lk its T T' (modify F).
Proof.
  intros HF HT s (cur & f & Hh & Hp & Hf & Hlk & Hits & Ht).
  unfold modify. simpl. destruct (HF s) as (E1 & E2 & E3).
  split; [|reflexivity].
  exists cur, f. rewrite E1, E2, E3. creating_split; auto.
Qed.

Lemma creating_step_bind (T T' T'' : formatted_t -> dict string -> Prop)
  {A B} (m : M RealtimeConversation A) (k : A -> M RealtimeConversation B) :
  creating_step h0 it lk its T T' m ->
  (forall a, creating_step h0 it lk its T' T'' (k a)) ->
  creating_step h0 it lk its T T'' (bind m k).
Proof.
  intros Hm Hk s Hs. unfold bind. specialize (Hm s Hs).
  destruct (m s) as [[a|e] s']; simpl in *.
  - apply Hk. tauto.
  - destruct Hm; discriminate.
Qed.

Lemma creating_step_ret (T : formatted_t -> dict string -> Prop) {A} (a : A) :
  creating_step h0 it lk its T T (ret a).
Proof. intros s Hs. now split. Qed.

Lemma creating_step_gets (T : formatted_t -> dict string -> Prop) {A}
  (f : RealtimeConversation -> A) :
  creating_step h0 it lk its T T (gets f).
Proof. intros s Hs. now split. Qed.

Lemma creating_step_keeps (T T' : formatted_t -> dict string -> Prop)
  {A} (m : M RealtimeConversation A) :
  (forall f d, T f d -> T' f d) ->
  creating_step h0 it lk its T T' m ->
  triple (creating h0 it lk its T) m (fun _ s => exists T0, creating h0 it lk its T0 s).
Proof.
  intros _ H s Hs. destruct (H s Hs) as [H1 _]. now exists T'.
Qed.

(** Every step keeps the shape, also when it raises. *)

Lemma shaped_fmt_update (g : formatted_t -> formatted_t) :
  keeps (shaped h0 it lk its) (fmt_update (List.length h0) g).
Proof.
  intros s Hs.
  now destruct (@creating_fmt_update (fun _ _ => True) (fun _ _ => True) g
                  (fun _ _ _ => I) s Hs).
Qed.

Lemma shaped_update_status (status : option string) :
  keeps (shaped h0 it lk its) (update (List.length h0) (with_status status)).
Proof.
  intros s Hs.
  now destruct (@creating_update_status (fun _ _ => True) status s Hs).
Qed.

Lemma shaped_modify (F : RealtimeConversation -> RealtimeConversation) :
  (forall s, heap (F s) = heap s /\ item_lookup (F s) = item_lookup s
             /\ items (F s) = items s) ->
  keeps (shaped h0 it lk its) (modify F).
Proof.
  intros HF s Hs.
  now destruct (@creating_modify (fun _ _ => True) (fun _ _ => True) F HF
                  (fun _ _ _ => I) s Hs).
Qed.

End Creating.

(** Stepping through the first statements of a handler. *)
Lemma bind_alloc {B} (it : item) (k : ref -> M RealtimeConversation B)
  (s : RealtimeConversation) :
  bind (alloc it) k s
  = k (List.length (heap s)) (set_heap (heap s ++ [it]) s).
Proof. reflexivity. Qed.

Lemma bind_gets {S A B} (f : S -> A) (k : A -> M S B) (s : S) :
  bind (gets f) k s = k (f s) s.
Proof. reflexivity. Qed.

Lemma bind_get {S B} (k : S -> M S B) (s : S) :
  bind get k s = k s s.
Proof. reflexivity. Qed.

Lemma bind_modify {S B} (f : S -> S) (k : unit -> M S B) (s : S) :
  bind (modify f) k s = k tt (f s).
Proof. reflexivity. Qed.

Lemma bind_ret {S A B} (a : A) (k : A -> M S B) (s : S) :
  bind (ret a) k s = k a s.
Proof. reflexivity. Qed.

Lemma bind_raise {S A B} (e : exn) (k : A -> M S B) (s : S) :
  bind (raise e) k s = (Raise e, s).
Proof. reflexivity. Qed.

Lemma bind_assoc {S A B C} (m : M S A) (k1 : A -> M S B) (k2 : B -> M S C)
  (s : S) :
  bind (bind m k1) k2 s = bind m (fun a => bind (k1 a) k2) s.
Proof. unfold bind. destruct (m s) as [[a|e] s']; reflexivity. Qed.

Ltac keeps_step :=
  match goal with
  | |- keeps _ (bind _ _) => apply keeps_bind; [| intros ?]
  | |- keeps _ (ret _) => apply keeps_ret
  | |- keeps _ (raise _) => apply keeps_raise
  | |- keeps _ (gets _) => apply keeps_gets
  | |- keeps _ get => apply keeps_get
  | |- keeps _ (when _ _) => apply keeps_when
  | |- keeps _ (match ?x with _ => _ end) => destruct x
  end.

Ltac shaped_step :=
  match goal with
  | |- keeps _ (for_each _ _) => apply keeps_for_each; intros
  | |- keeps _ (fmt_update _ _) => apply shaped_fmt_update
  | |- keeps _ (update _ (with_status _)) => apply shaped_update_status
  | |- keeps _ (modify _) => apply shaped_modify; intros; simpl; auto
  | _ => keeps_step
  end.

(** The blocks of [_process_item_created] that follow the insertion and
    the initialisation of [formatted]. *)
Lemma created_rest_keeps_shape (h0 : list item) (it : item) (lk : dict ref)
  (its : list ref) (s : RealtimeConversation) (rest : M RealtimeConversation handler_result) :
  shaped h0 it lk its s ->
  keeps (shaped h0 it lk its) rest ->
  shaped h0 it lk its (snd (rest s)).
Proof. intros Hs K. now apply K. Qed.

Lemma created_keeps_shape (it : item) (st : RealtimeConversation) :
  let n := List.length (heap st) in
  let known := dict_mem (i_id it) (item_lookup st) in
  shaped (heap st) it
    (if known then item_lookup st else dict_set (i_id it) n (item_lookup st))
    (if known then items st else (items st ++ [n])%list)
    (snd (_process_item_created it st)).
Proof.
  intros n known. unfold _process_item_created.
  rewrite bind_alloc, bind_gets. cbn [item_lookup set_heap].
  fold n. fold known.
  assert (Hinit : forall s,
             heap s = (heap st ++ [it])%list ->
             item_lookup s = (if known then item_lookup st
                              else dict_set (i_id it) n (item_lookup st)) ->
             items s = (if known then items st else (items st ++ [n])%list) ->
             shaped (heap st) it (item_lookup s) (items s)
               (set_heap (list_upd (heap s) n (with_formatted (Some formatted_init))) s)).
  { intros s Hh _ _. exists (with_formatted (Some formatted_init) it), formatted_init.
    simpl. rewrite Hh. unfold n. rewrite list_upd_last.
    creating_split; auto. unfold same_payload; simpl; tauto. }
  destruct known eqn:Hk; cbn [negb when].
  - rewrite bind_ret. unfold update at 1. rewrite bind_modify.
    apply created_rest_keeps_shape.
    + apply (Hinit (set_heap (heap st ++ [it]) st)); reflexivity.
    + repeat shaped_step.
  - rewrite bind_assoc, bind_modify, bind_modify.
    unfold update at 1. rewrite bind_modify.
    apply created_rest_keeps_shape.
    + apply (Hinit (set_items (items st ++ [n])
                      (set_item_lookup (dict_set (i_id it) n (item_lookup st))
                         (set_heap (heap st ++ [it]) st)))); reflexivity.
    + repeat shaped_step.
Qed.

(** *** Running the handler when every key it reads is there *)

Lemma bind_ok {S A B} (m : M S A) (k : A -> M S B) (s s' : S) (a : A) :
  m s = (Ok a, s') -> bind m k s = k a s'.
Proof. unfold bind. now intros ->. Qed.


Lemma run_update (h0 : list item) (cur : item) (F : item -> item)
  (s : RealtimeConversation) :
  heap s = (h0 ++ [cur])%list ->
  update (List.length h0) F s = (Ok tt, set_heap (h0 ++ [F cur]) s).
Proof.
  intros Hh. unfold update, modify. now rewrite Hh, list_upd_last.
Qed.

Lemma run_fmt_update (h0 : list item) (cur : item) (f : formatted_t)
  (g : formatted_t -> formatted_t) (s : RealtimeConversation) :
  heap s = (h0 ++ [cur])%list ->
  i_formatted cur = Some f ->
  fmt_update (List.length h0) g s
  = (Ok tt, set_heap (h0 ++ [with_formatted (Some (g f)) cur]) s).
Proof.
  intros Hh Hf. unfold fmt_update, get_formatted, load.
  rewrite bind_assoc. unfold bind at 1. rewrite Hh, nth_error_last, Hf.
  rewrite bind_ret. now apply run_update.
Qed.

Lemma run_text_loop (h0 : list item) (l : list content_part) :
  forall (cur : item) (f : formatted_t) (s : RealtimeConversation),
    heap s = (h0 ++ [cur])%list ->
    i_formatted cur = Some f ->
    forallb (fun c => match c_text c with Some _ => true | None => false end) l
    = true ->
    exists s',
      for_each l
        (fun c => match c_text c with
                  | Some t => fmt_update (List.length h0)
                                (fun f => with_text (f_text f ++ t)%string f)
                  | None => raise (KeyError "text")
                  end) s = (Ok tt, s')
      /\ heap s' = (h0 ++ [with_formatted
                             (Some (with_text
                                      (fold_left (fun a c => (a ++ part_text c)%string) l
                                         (f_text f)) f)) cur])%list
      /\ item_lookup s' = item_lookup s /\ items s' = items s
      /\ queued_speech_items s' = queued_speech_items s
      /\ queued_transcript_items s' = queued_transcript_items s
      /\ queued_input_audio s' = queued_input_audio s.
Proof.
  induction l as [|c l IH]; intros cur f s Hh Hf Hall.
  - exists s. simpl. split; [reflexivity|]. split; auto.
    rewrite Hh. destruct cur, f; simpl in *. now rewrite Hf.
  - simpl in Hall. apply andb_true_iff in Hall. destruct Hall as [Hc Hall].
    simpl. destruct (c_text c) as [t|] eqn:Et; [|discriminate].
    erewrite bind_ok by (apply run_fmt_update; eassumption).
    destruct (IH (with_formatted (Some (with_text (f_text f ++ t)%string f)) cur)
                (with_text (f_text f ++ t)%string f)
                (set_heap (h0 ++ [with_formatted (Some (with_text (f_text f ++ t)%string f)) cur]) s)
                eq_refl eq_refl Hall)
      as (s' & Hrun & Hh' & E1 & E2 & E3 & E4 & E5).
    exists s'. split; [exact Hrun|]. split.
    + rewrite Hh'. cbn [fold_left].
      assert (Hpt : part_text c = t) by (unfold part_text; now rewrite Et).
      rewrite Hpt. reflexivity.
    + simpl in *. auto.
Qed.

Ltac st_simpl :=
  cbn [heap item_lookup items rheap response_lookup responses
       queued_speech_items queued_transcript_items queued_input_audio
       set_heap set_item_lookup set_items set_rheap set_response_lookup
       set_responses set_queued_speech_items set_queued_transcript_items
       set_queued_input_audio fst snd negb when i_formatted with_formatted
       with_status].

Ltac run_side := first [eassumption | reflexivity].

Ltac run_step :=
  first
    [ rewrite bind_gets
    | rewrite bind_modify
    | rewrite bind_ret
    | rewrite bind_get
    | rewrite bind_assoc
    | erewrite bind_ok by (eapply run_fmt_update; run_side)
    | erewrite bind_ok by (eapply run_update; run_side)
    | erewrite run_fmt_update by run_side
    | erewrite run_update by run_side ];
  st_simpl.

Ltac facts_split := refine (conj _ (conj _ (conj _ (conj _ (conj _ _))))).

Ltac facts_done :=
  facts_split;
  [ st_simpl; first [eassumption | reflexivity]
  | st_simpl; first [eassumption | reflexivity]
  | .. ];
  st_simpl;
  cbn [f_text f_transcript with_audio with_tool with_output with_transcript
       with_text];
  auto.

Lemma created_run (it : item) (st : RealtimeConversation) :
  created_ready st it = true ->
  exists s',
    _process_item_created it st = (Ok (Some (List.length (heap st)), None), s')
    /\ created_facts st it (seeded_text it)
         match dict_get (i_id it) (queued_transcript_items st) with
         | Some q => q
         | None => EmptyString
         end true true s'.
Proof.
  intros Hready. set (n := List.length (heap st)).
  unfold created_ready, speech_ready, texts_ready, variant_ready in Hready.
  apply andb_true_iff in Hready. destruct Hready as [Hready Hvar].
  apply andb_true_iff in Hready. destruct Hready as [Hsp Htx].
  unfold _process_item_created.
  rewrite bind_alloc, bind_gets. st_simpl. fold n.
  (* insertion and initialisation *)
  assert (Hpre : exists s1,
             created_facts st it EmptyString EmptyString false false s1
             /\ forall B (k : unit -> M RealtimeConversation B),
                 bind (when (negb (dict_mem (i_id it) (item_lookup st)))
                         (bind (modify (fun st0 =>
                                  set_item_lookup
                                    (dict_set (i_id it) n (item_lookup st0)) st0))
                            (fun _ => modify (fun st0 =>
                                  set_items (items st0 ++ [n]) st0))))
                   (fun _ => bind (update n (with_formatted (Some formatted_init))) k)
                   (set_heap (heap st ++ [it]) st)
                 = k tt s1).
  { destruct (dict_mem (i_id it) (item_lookup st)); st_simpl.
    - eexists. split; cycle 1.
      + intros B k. unfold n. do 2 run_step. reflexivity.
      + exists (with_formatted (Some formatted_init) it), formatted_init.
        facts_split; reflexivity.
    - eexists. split; cycle 1.
      + intros B k. unfold n. do 4 run_step. reflexivity.
      + exists (with_formatted (Some formatted_init) it), formatted_init.
        facts_split; reflexivity. }
  destruct Hpre as (s1 & Hf1 & Hrun1). rewrite Hrun1. clear Hrun1.
  rewrite bind_gets.
  (* queued speech *)
  assert (Hsp2 : exists s2,
             created_facts st it EmptyString EmptyString true false s2
             /\ forall B (k : unit -> M RealtimeConversation B),
                 bind match dict_get (i_id it) (queued_speech_items s1) with
                      | Some sp =>
                          match audio sp with
                          | Some a =>
                              bind (fmt_update n (with_audio (AudioBuf a)))
                                (fun _ => modify (fun st0 =>
                                   set_queued_speech_items
                                     (dict_del (i_id it) (queued_speech_items st0)) st0))
                          | None => raise (KeyError "audio")
                          end
                      | None => ret tt
                      end k s1 = k tt s2).
  { destruct Hf1 as (cur & f & Hh & Hf & Htxt & Htr & Hqs & Hqt).
    rewrite Hqs.
    destruct (dict_get (i_id it) (queued_speech_items st)) as [sp|] eqn:Eqs.
    - destruct (audio sp) as [a|]; [|discriminate].
      eexists. split; cycle 1.
      + intros B k. unfold n. do 3 run_step. reflexivity.
      + exists (with_formatted (Some (with_audio (AudioBuf a) f)) cur),
          (with_audio (AudioBuf a) f).
        facts_split; st_simpl; auto. apply dict_get_del_same.
    - exists s1. split; [|intros B k; now rewrite bind_ret].
      exists cur, f. facts_split; auto. now rewrite Hqs. }
  destruct Hsp2 as (s2 & Hf2 & Hrun2). rewrite Hrun2. clear Hrun2 Hsp Hf1 s1.
  (* text of the content parts *)
  assert (Htx3 : exists s3,
             created_facts st it (seeded_text it) EmptyString true false s3
             /\ forall B (k : unit -> M RealtimeConversation B),
                 bind match i_content it with
                      | Some cs =>
                          for_each (filter (fun c => is_text_type (c_type c)) cs)
                            (fun c =>
                               match c_text c with
                               | Some t =>
                                   fmt_update n
                                     (fun f => with_text (f_text f ++ t)%string f)
                               | None => raise (KeyError "text")
                               end)
                      | None => ret tt
                      end k s2 = k tt s3).
  { destruct Hf2 as (cur & f & Hh & Hf & Htxt & Htr & Hqs & Hqt).
    unfold seeded_text. destruct (i_content it) as [cs|].
    - destruct (@run_text_loop (heap st)
                  (filter (fun c => is_text_type (c_type c)) cs) cur f s2 Hh Hf Htx)
        as (s3 & Hrun & Hh3 & E1 & E2 & E3 & E4 & E5).
      exists s3. split; [|intros B k; unfold n; now erewrite bind_ok by exact Hrun].
      eexists. eexists. facts_split; [exact Hh3|reflexivity| | | |].
      + simpl. unfold seed_text. now rewrite Htxt.
      + exact Htr.
      + now rewrite E3.
      + now rewrite E4.
    - exists s2. split; [|intros B k; now rewrite bind_ret].
      exists cur, f. facts_split; auto. }
  destruct Htx3 as (s3 & Hf3 & Hrun3). rewrite Hrun3. clear Hrun3 Htx Hf2 s2.
  rewrite bind_gets.
  (* queued transcript *)
  set (tr := match dict_get (i_id it) (queued_transcript_items st) with
             | Some q => q
             | None => EmptyString
             end).
  assert (Htr4 : exists s4,
             created_facts st it (seeded_text it) tr true true s4
             /\ forall B (k : unit -> M RealtimeConversation B),
                 bind match dict_get (i_id it) (queued_transcript_items s3) with
                      | Some t =>
                          bind (fmt_update n (with_transcript t))
                            (fun _ => modify (fun st0 =>
                               set_queued_transcript_items
                                 (dict_del (i_id it) (queued_transcript_items st0))
                                 st0))
                      | None => ret tt
                      end k s3 = k tt s4).
  { destruct Hf3 as (cur & f & Hh & Hf & Htxt & Htr & Hqs & Hqt).
    rewrite Hqt. subst tr.
    destruct (dict_get (i_id it) (queued_transcript_items st)) as [q|] eqn:Eqt.
    - eexists. split; cycle 1.
      + intros B k. unfold n. do 3 run_step. reflexivity.
      + exists (with_formatted (Some (with_transcript q f)) cur),
          (with_transcript q f).
        facts_split; st_simpl; auto. apply dict_get_del_same.
    - exists s3. split; [|intros B k; now rewrite bind_ret].
      exists cur, f. facts_split; auto. now rewrite Hqt. }
  destruct Htr4 as (s4 & Hf4 & Hrun4). rewrite Hrun4. clear Hrun4 Hf3 s3.
  (* status and variant *)
  destruct Hf4 as (cur & f & Hh & Hf & Htxt & Htr & Hqs & Hqt).
  destruct (String.eqb (i_type it) "message").
  { destruct (i_role it) as [role|]; [|discriminate].
    destruct (String.eqb role "user").
    - unfold n. repeat run_step.
      destruct (queued_input_audio s4) as [[|b bs]|].
      + repeat run_step. eexists. split; [reflexivity|].
        eexists. exists f. facts_done.
      + repeat run_step. eexists. split; [reflexivity|].
        eexists. eexists. facts_done.
      + repeat run_step. eexists. split; [reflexivity|].
        eexists. exists f. facts_done.
    - unfold n. repeat run_step. eexists. split; [reflexivity|].
      eexists. exists f. facts_done. }
  destruct (String.eqb (i_type it) "function_call").
  { destruct (i_name it) as [name|]; [|discriminate].
    destruct (i_call_id it) as [call_id|]; [|discriminate].
    unfold n. repeat run_step. eexists. split; [reflexivity|].
    eexists. eexists. facts_done. }
  destruct (String.eqb (i_type it) "function_call_output").
  { destruct (i_output it) as [out|]; [|discriminate].
    unfold n. repeat run_step. eexists. split; [reflexivity|].
    eexists. eexists. facts_done. }
  run_step. eexists. split; [reflexivity|].
  exists cur, f. facts_split; auto.
Qed.

Lemma created_value (it : item) (st : RealtimeConversation) (x : handler_result) :
  fst (_process_item_created it st) = Ok x ->
  x = (Some (List.length (heap st)), None).
Proof.
  unfold _process_item_created. rewrite bind_alloc. intros H.
  match type of H with
  | fst (?m ?s0) = Ok _ =>
      assert (Hr : only_returns (Some (List.length (heap st)), @None delta_t) m)
        by (repeat first [ apply only_returns_bind; intros
                         | apply only_returns_ret ]);
      now apply Hr in H
  end.
Qed.
(** ** The store's handlers *)

Section StoreFacts.

Variable default_frequency : Z.
Variable b64decode : string -> option bytes.

(** C9. A [speech_stopped] event for an identifier with no queued speech
    entry makes [process_event] fail, whatever extra arguments it gets;
    when the entry exists and the extra argument is a non-empty buffer,
    the call returns [(None, None)] and the entry now holds the end time
    and [audio = buffer[start_index:end_index]], both indices being
    [ms * sample_rate // 1000]. *)
Theorem speech_stopped_slices_buffer :
  forall (st : RealtimeConversation) (item_id : string) (end_ms : Z),
    (dict_get item_id (queued_speech_items st) = None ->
     forall args,
       exists e, fst (process_event default_frequency b64decode
                        (SpeechStopped item_id end_ms) args st) = Raise e)
    /\
    (forall sp b bs,
       dict_get item_id (queued_speech_items st) = Some sp ->
       let buffer := b :: bs in
       let res := process_event default_frequency b64decode
                    (SpeechStopped item_id end_ms) [Some buffer] st in
       fst res = Ok (None, None)
       /\ dict_get item_id (queued_speech_items (snd res))
          = Some {| audio_start_ms := audio_start_ms sp;
                    audio_end_ms := Some end_ms;
                    audio := Some (py_slice buffer
                                     ((audio_start_ms sp * default_frequency) / 1000)
                                     ((end_ms * default_frequency) / 1000)) |}).
Proof.
  intros st item_id end_ms. split.
  - intros Hnone args. unfold process_event.
    destruct args as [|a [|a' args]]; try (eexists; reflexivity).
    unfold _process_speech_stopped, bind, gets. simpl.
    rewrite Hnone. eexists; reflexivity.
  - intros sp b bs Hsome. simpl.
    unfold _process_speech_stopped, bind, gets, modify, ret. simpl.
    rewrite Hsome. simpl. split; [reflexivity|].
    apply dict_get_set_same.
Qed.

(** A slice with bounds inside the buffer is the segment between them. *)
Lemma py_slice_inside {A} (l : list A) (a b : Z) :
  0 <= a <= b -> b <= Z.of_nat (List.length l) ->
  py_slice l a b = firstn (Z.to_nat (b - a)) (skipn (Z.to_nat a) l).
Proof.
  intros Hab Hb. unfold py_slice, py_clamp.
  destruct (a <? 0) eqn:Ea; [apply Z.ltb_lt in Ea; lia|].
  destruct (b <? 0) eqn:Eb; [apply Z.ltb_lt in Eb; lia|].
  rewrite !Z.min_l by lia. reflexivity.
Qed.

(** C10. A [conversation.item.created] event whose identifier is already
    in the index leaves the index, the sequence and every object that was
    in the store as they were (the stored item is not replaced); the call
    still builds a new object, the last cell of the heap, which carries the
    payload and a [formatted] dictionary of its own; whenever the handler
    returns it returns that new object, which is not the stored one; and
    it does return when the keys it reads are there. *)
Theorem created_again_returns_fresh_copy :
  forall (st : RealtimeConversation) (it it0 : item) (r0 : ref),
    dict_get (i_id it) (item_lookup st) = Some r0 ->
    nth_error (heap st) r0 = Some it0 ->
    let res := process_event default_frequency b64decode
                 (ConversationItemCreated it) [] st in
    let n := List.length (heap st) in
    items (snd res) = items st
    /\ item_lookup (snd res) = item_lookup st
    /\ (forall r, (r < n)%nat ->
                  nth_error (heap (snd res)) r = nth_error (heap st) r)
    /\ nth_error (heap (snd res)) r0 = Some it0
    /\ (exists cur f,
          nth_error (heap (snd res)) n = Some cur
          /\ same_payload cur it /\ i_formatted cur = Some f
          /\ (created_ready st it = true ->
              f_text f = seeded_text it
              /\ f_transcript f
                 = match dict_get (i_id it) (queued_transcript_items st) with
                   | Some q => q
                   | None => EmptyString
                   end))
    /\ (forall r d, fst res = Ok (Some r, d) -> r = n /\ r <> r0 /\ d = None)
    /\ (created_ready st it = true -> fst res = Ok (Some n, None)).
Proof.
  intros st it it0 r0 Hknown Hstored. cbv zeta.
  change (process_event default_frequency b64decode
            (ConversationItemCreated it) [] st)
    with (_process_item_created it st).
  pose proof (created_keeps_shape it st) as Hshape. cbv zeta in Hshape.
  unfold dict_mem in Hshape. rewrite Hknown in Hshape.
  destruct Hshape as (cur & f & Hh & Hp & Hf & Hlk & Hits & _).
  assert (Hr0 : (r0 < List.length (heap st))%nat)
    by (apply nth_error_Some; congruence).
  assert (Hval : forall r d, fst (_process_item_created it st) = Ok (Some r, d) ->
                             r = List.length (heap st) /\ d = None).
  { intros r d Hres. apply created_value in Hres. now injection Hres as -> ->. }
  repeat split.
  - exact Hits.
  - exact Hlk.
  - intros r Hr. rewrite Hh. now apply nth_error_before_last.
  - rewrite Hh, nth_error_before_last by exact Hr0. exact Hstored.
  - exists cur, f. rewrite Hh, nth_error_last.
    split; [reflexivity|]. split; [exact Hp|]. split; [exact Hf|].
    intros Hready. destruct (created_run it st Hready) as (s' & Hrun & Hfacts).
    destruct Hfacts as (cur' & f' & Hh' & Hf' & Htxt & Htr & _).
    rewrite Hrun in Hh. simpl in Hh. rewrite Hh' in Hh.
    apply app_inj_tail in Hh. destruct Hh as [_ <-].
    rewrite Hf in Hf'. injection Hf' as <-. now split.
  - now apply Hval in H.
  - apply Hval in H. lia.
  - now apply Hval in H.
  - intros Hready. destruct (created_run it st Hready) as (s' & Hrun & _).
    now rewrite Hrun.
Qed.

(** *** Updates of a stored object *)

Lemma run_fmt_update_at (r : ref) (cur : item) (f : formatted_t)
  (g : formatted_t -> formatted_t) (s : RealtimeConversation) :
  nth_error (heap s) r = Some cur ->
  i_formatted cur = Some f ->
  fmt_update r g s
  = (Ok tt, set_heap (list_upd (heap s) r (with_formatted (Some (g f)))) s).
Proof.
  intros Hr Hf. unfold fmt_update, get_formatted, load.
  rewrite bind_assoc. unfold bind at 1. rewrite Hr, Hf.
  rewrite bind_ret. reflexivity.
Qed.

(** The part of C7 that holds.  A transcription-completed event for an
    identifier that is not in the index returns [(None, None)], stores
    [transcript or " "] under that identifier in the queued transcripts
    and changes nothing else (the index and the sequence in particular);
    and when an item with that identifier is created while the transcript
    is still queued, in a state where the handler finds the keys it reads
    ([created_ready]), the created item is the one stored in the index,
    its [formatted["transcript"]] is the queued transcript, and the queue
    entry is gone. *)
Lemma transcript_waits_for_its_item :
  forall (st : RealtimeConversation) (item_id : string) (content_index : Z)
         (transcript : string),
    dict_get item_id (item_lookup st) = None ->
    let res := process_event default_frequency b64decode
                 (InputAudioTranscriptionCompleted item_id content_index transcript)
                 [] st in
    fst res = Ok (None, None)
    /\ snd res = set_queued_transcript_items
                   (dict_set item_id (or_space transcript)
                      (queued_transcript_items st)) st
    /\ dict_get item_id (queued_transcript_items (snd res))
       = Some (or_space transcript)
    /\ items (snd res) = items st
    /\ item_lookup (snd res) = item_lookup st
    /\ forall (st2 : RealtimeConversation) (it : item),
         i_id it = item_id ->
         dict_get item_id (item_lookup st2) = None ->
         dict_get item_id (queued_transcript_items st2)
         = Some (or_space transcript) ->
         created_ready st2 it = true ->
         let res2 := process_event default_frequency b64decode
                       (ConversationItemCreated it) [] st2 in
         exists r cur f,
           fst res2 = Ok (Some r, None)
           /\ dict_get item_id (item_lookup (snd res2)) = Some r
           /\ nth_error (heap (snd res2)) r = Some cur
           /\ same_payload cur it
           /\ i_formatted cur = Some f
           /\ f_transcript f = or_space transcript
           /\ dict_get item_id (queued_transcript_items (snd res2)) = None.
Proof.
  intros st item_id ci transcript Hnone. cbv zeta.
  assert (Hrun : process_event default_frequency b64decode
                   (InputAudioTranscriptionCompleted item_id ci transcript) [] st
                 = (Ok (None, None),
                    set_queued_transcript_items
                      (dict_set item_id (or_space transcript)
                         (queued_transcript_items st)) st)).
  { simpl. unfold _process_input_audio_transcription_completed.
    rewrite bind_gets, Hnone, bind_modify. reflexivity. }
  rewrite Hrun. simpl.
  split; [reflexivity|]. split; [reflexivity|].
  split; [apply dict_get_set_same|]. split; [reflexivity|]. split; [reflexivity|].
  intros st2 it Hid Hnone2 Hq Hready.
  change (process_event default_frequency b64decode
            (ConversationItemCreated it) [] st2)
    with (_process_item_created it st2).
  destruct (created_run it st2 Hready) as (s' & Hrun2 & Hfacts).
  pose proof (created_keeps_shape it st2) as Hshape. cbv zeta in Hshape.
  unfold dict_mem in Hshape. rewrite Hid, Hnone2, Hrun2 in Hshape.
  simpl in Hshape.
  destruct Hshape as (cur & f & Hh & Hp & Hf & Hlk & _).
  destruct Hfacts as (cur' & f' & Hh' & Hf' & _ & Htr & _ & Hqt).
  rewrite Hh' in Hh. apply app_inj_tail in Hh. destruct Hh as [_ ->].
  rewrite Hf in Hf'. injection Hf' as <-.
  rewrite Hid, Hq in Htr. rewrite Hid in Hqt.
  exists (List.length (heap st2)), cur, f. rewrite Hrun2. simpl.
  split; [reflexivity|]. split; [rewrite Hlk; apply dict_get_set_same|].
  split; [rewrite Hh'; apply nth_error_last|]. auto.
Qed.

(** C8. An audio delta for an identifier that is not in the index returns
    [(None, None)] and leaves the whole store as it was, whereas a text
    delta, an audio-transcript delta and a function-call-arguments delta
    for it make [process_event] fail; an audio delta for a stored item
    whose [formatted["audio"]] is a list of chunks returns the item with
    [{"audio": bytes}] and appends the decoded bytes as one more chunk. *)
Theorem audio_delta_for_unknown_item_is_dropped :
  forall (st : RealtimeConversation) (item_id : string) (content_index : Z)
         (delta : string),
    dict_get item_id (item_lookup st) = None ->
    process_event default_frequency b64decode
      (ResponseAudioDelta item_id content_index delta) [] st
    = (Ok (None, None), st)
    /\ process_event default_frequency b64decode
         (ResponseTextDelta item_id content_index delta) [] st
       = (Raise (PyException ("response.text.delta: Item "
                                ++ quoted item_id ++ " not found")), st)
    /\ process_event default_frequency b64decode
         (ResponseAudioTranscriptDelta item_id content_index delta) [] st
       = (Raise (PyException ("response.audio_transcript.delta: Item "
                                ++ quoted item_id ++ " not found")), st)
    /\ process_event default_frequency b64decode
         (ResponseFunctionCallArgumentsDelta item_id delta) [] st
       = (Raise (PyException ("response.function_call_arguments.delta: Item "
                                ++ quoted item_id ++ " not found")), st)
    /\ forall (st2 : RealtimeConversation) (r : ref) (cur : item)
              (f : formatted_t) (cs : list bytes) (bs : bytes) (delta2 : string),
         dict_get item_id (item_lookup st2) = Some r ->
         nth_error (heap st2) r = Some cur ->
         i_formatted cur = Some f ->
         f_audio f = AudioChunks cs ->
         b64decode delta2 = Some bs ->
         let res := process_event default_frequency b64decode
                      (ResponseAudioDelta item_id content_index delta2) [] st2 in
         fst res = Ok (Some r, Some (DAudio bs))
         /\ nth_error (heap (snd res)) r
            = Some (with_formatted
                      (Some (with_audio (AudioChunks (cs ++ [bs])) f)) cur).
Proof.
  intros st item_id ci delta Hnone.
  split; [|split; [|split; [|split]]].
  - simpl. unfold _process_audio_delta. now rewrite bind_gets, Hnone.
  - simpl. unfold _process_text_delta. now rewrite bind_gets, Hnone.
  - simpl. unfold _process_audio_transcript_delta. now rewrite bind_gets, Hnone.
  - simpl. unfold _process_function_call_arguments_delta.
    now rewrite bind_gets, Hnone.
  - intros st2 r cur f cs bs delta2 Hsome Hr Hf Ha Hdec. cbv zeta.
    assert (Hrun : process_event default_frequency b64decode
                     (ResponseAudioDelta item_id ci delta2) [] st2
                   = (Ok (Some r, Some (DAudio bs)),
                      set_heap
                        (list_upd (heap st2) r
                           (with_formatted
                              (Some (with_audio (AudioChunks (cs ++ [bs])) f))))
                        st2)).
    { simpl. unfold _process_audio_delta, get_formatted, load.
      rewrite bind_gets, Hsome, Hdec.
      rewrite bind_assoc. unfold bind at 1. rewrite Hr, Hf, bind_ret, Ha.
      unfold update. rewrite bind_modify. reflexivity. }
    rewrite Hrun. simpl.
    split; [reflexivity|]. now apply nth_error_list_upd_same.
Qed.

End StoreFacts.
(** ** The index and the sequence agree *)

Lemma store_inv_update (r : ref) (F : item -> item) :
  (forall x, i_id (F x) = i_id x) -> keeps store_inv (update r F).
Proof.
  intros HF s (Hv & Hn & Hh). unfold update, modify. cbn [fst snd].
  unfold store_inv. st_simpl.
  split; [exact Hv|]. split; [exact Hn|].
  intros k r' Hin. destruct (Hh k r' Hin) as (x & Hx & Hid).
  rewrite nth_error_list_upd, Hx. simpl.
  destruct (Nat.eqb r r'); eexists; split; try reflexivity; auto.
  now rewrite HF.
Qed.

Lemma keeps_load (P : RealtimeConversation -> Prop) (r : ref) : keeps P (load r).
Proof. intros s Hs. unfold load. now destruct (nth_error (heap s) r). Qed.

Lemma keeps_get_formatted (P : RealtimeConversation -> Prop) (r : ref) :
  keeps P (get_formatted r).
Proof.
  unfold get_formatted. apply keeps_bind; [apply keeps_load|].
  intros a. destruct (i_formatted a); [apply keeps_ret | apply keeps_raise].
Qed.

Lemma keeps_get_content_part (P : RealtimeConversation -> Prop) (r : ref)
  (ci : Z) : keeps P (get_content_part r ci).
Proof.
  unfold get_content_part. apply keeps_bind; [apply keeps_load|].
  intros a. repeat keeps_step.
Qed.

Lemma store_inv_fmt_update (r : ref) (g : formatted_t -> formatted_t) :
  keeps store_inv (fmt_update r g).
Proof.
  unfold fmt_update. apply keeps_bind; [apply keeps_get_formatted|].
  intros f. now apply store_inv_update.
Qed.

Ltac inv_step :=
  match goal with
  | |- keeps _ (update _ _) => apply store_inv_update; intros; reflexivity
  | |- keeps _ (fmt_update _ _) => apply store_inv_fmt_update
  | |- keeps _ (load _) => apply keeps_load
  | |- keeps _ (get_formatted _) => apply keeps_get_formatted
  | |- keeps _ (get_content_part _ _) => apply keeps_get_content_part
  | |- keeps _ (modify _) =>
      apply keeps_modify; let s := fresh "s" in let H := fresh "H" in
                          intros s H; exact H
  | _ => keeps_step
  end.

Lemma store_inv_created (it : item) :
  keeps store_inv (_process_item_created it).
Proof.
  intros st (Hv & Hn & Hh).
  pose proof (created_keeps_shape it st) as Hshape. cbv zeta in Hshape.
  destruct Hshape as (cur & f & Hheap & Hp & Hf & Hlk & Hits & _).
  unfold store_inv. rewrite Hlk, Hits, Hheap.
  assert (Hold : forall k r, In (k, r) (item_lookup st) ->
                   exists x, nth_error (heap st ++ [cur]) r = Some x /\ i_id x = k).
  { intros k r Hin. destruct (Hh k r Hin) as (x & Hx & Hid).
    exists x. split; [|exact Hid].
    rewrite nth_error_app1; [exact Hx|]. apply nth_error_Some. congruence. }
  unfold dict_mem.
  destruct (dict_get (i_id it) (item_lookup st)) as [r0|] eqn:Ek.
  - split; [exact Hv|]. split; [exact Hn|]. exact Hold.
  - rewrite dict_set_absent by exact Ek.
    unfold dict_values, dict_keys in *. rewrite !map_app. simpl.
    split; [now rewrite <- Hv|]. split.
    + apply NoDup_app; [exact Hn | repeat constructor; simpl; tauto | ].
      intros k Hin [<-|[]]. eapply dict_get_None_notin; eauto.
    + intros k r Hin. apply in_app_or in Hin. destruct Hin as [Hin|[[= <- <-]|[]]].
      * now apply Hold.
      * exists cur. split; [apply nth_error_last|]. apply Hp.
Qed.

Lemma list_remove_stored (h : list item) (lk : dict ref) (id : string) (r : ref) :
  NoDup (dict_keys lk) ->
  (forall k r', In (k, r') lk -> exists x, nth_error h r' = Some x /\ i_id x = k) ->
  dict_get id lk = Some r ->
  list_remove h r (dict_values lk) = Some (dict_values (dict_del id lk)).
Proof.
  induction lk as [|[k' r'] lk IH]; simpl; [discriminate|].
  intros Hn Hh Hget. inversion Hn as [|? ? Hnotin Hn']; subst.
  destruct (String.eqb id k') eqn:E.
  - apply String.eqb_eq in E. subst k'. injection Hget as ->.
    rewrite Nat.eqb_refl. simpl. now rewrite dict_del_absent.
  - apply String.eqb_neq in E.
    destruct (Hh k' r' (or_introl eq_refl)) as (x' & Hx' & Hid').
    destruct (Hh id r (or_intror (@dict_get_In _ _ _ _ Hget))) as (x & Hx & Hid).
    rewrite Hx', Hx.
    assert (Hneq : Nat.eqb r' r = false).
    { apply Nat.eqb_neq. intros ->. congruence. }
    assert (Hneqb : item_eqb x' x = false).
    { unfold item_eqb. destruct (item_eq_dec x' x); [congruence|reflexivity]. }
    rewrite Hneq, Hneqb. simpl.
    rewrite IH; auto.
Qed.

Lemma store_inv_deleted (item_id : string) :
  keeps store_inv (_process_item_deleted item_id).
Proof.
  intros st (Hv & Hn & Hh). unfold _process_item_deleted.
  rewrite bind_gets.
  destruct (dict_get item_id (item_lookup st)) as [r|] eqn:Eget;
    [|now repeat split].
  destruct (Hh item_id r (@dict_get_In _ _ _ _ Eget)) as (x & Hx & Hid).
  unfold load. unfold bind at 1. rewrite Hx. rewrite bind_gets.
  unfold dict_mem. rewrite Hid, Eget.
  rewrite bind_modify, bind_get. st_simpl.
  rewrite <- Hv. erewrite list_remove_stored by eassumption.
  rewrite bind_modify. unfold ret. cbn [fst snd]. unfold store_inv. st_simpl.
  split; [reflexivity|]. split; [now apply dict_del_NoDup|].
  intros k r' Hin. apply Hh. eapply dict_del_In; eauto.
Qed.

Section StoreInvariant.

Variable default_frequency : Z.
Variable b64decode : string -> option bytes.

(** Every handler keeps the invariant, whether it returns or raises. *)
Lemma process_event_keeps_store_inv (ev : event) (args : list (option bytes)) :
  keeps store_inv (process_event default_frequency b64decode ev args).
Proof.
  destruct ev; simpl;
    try (destruct args as [|a args]; [|apply keeps_raise]);
    try apply keeps_raise.
  - apply store_inv_created.
  - unfold _process_item_truncated. repeat inv_step.
  - apply store_inv_deleted.
  - unfold _process_input_audio_transcription_completed. repeat inv_step.
  - unfold _process_speech_started. repeat inv_step.
  - destruct args as [|a [|a' args]]; try apply keeps_raise.
    unfold _process_speech_stopped. repeat inv_step.
  - unfold _process_response_created. repeat inv_step.
  - unfold _process_output_item_added. repeat inv_step.
  - unfold _process_output_item_done. repeat inv_step.
  - unfold _process_content_part_added. repeat inv_step.
  - unfold _process_audio_transcript_delta. repeat inv_step.
  - unfold _process_audio_delta. repeat inv_step.
  - unfold _process_text_delta. repeat inv_step.
  - unfold _process_function_call_arguments_delta. repeat inv_step.
Qed.

Lemma store_inv_init : store_inv RealtimeConversation_init.
Proof.
  split; [reflexivity|]. split; [constructor|]. intros k r [].
Qed.

Lemma process_events_keep_store_inv
  (evs : list (event * list (option bytes))) (st : RealtimeConversation) :
  store_inv st -> store_inv (process_events default_frequency b64decode evs st).
Proof.
  revert st. induction evs as [|[ev args] evs IH]; simpl; intros st H; auto.
  apply IH. now apply process_event_keeps_store_inv.
Qed.

End StoreInvariant.

Lemma nth_error_In_index {A} (l : list A) (x : A) :
  In x l -> exists i, nth_error l i = Some x.
Proof. apply In_nth_error. Qed.

(** What the invariant says about one identifier of the index. *)
Lemma store_inv_ordinal (st : RealtimeConversation) (id : string) (r : ref) :
  store_inv st ->
  dict_get id (item_lookup st) = Some r ->
  exists i x,
    nth_error (dict_keys (item_lookup st)) i = Some id
    /\ nth_error (items st) i = Some r
    /\ nth_error (heap st) r = Some x /\ i_id x = id
    /\ (forall j, nth_error (items st) j = Some r -> j = i)
    /\ (forall j r' x',
          nth_error (items st) j = Some r' ->
          nth_error (heap st) r' = Some x' -> i_id x' = id -> j = i)
    /\ List.length (items st) = List.length (dict_keys (item_lookup st)).
Proof.
  intros (Hv & Hn & Hh) Hget.
  pose proof (dict_get_In _ _ _ Hget) as Hin.
  destruct (Hh id r Hin) as (x & Hx & Hid).
  destruct (In_nth_error _ _ Hin) as (i & Hi).
  assert (Hk : forall j k r', nth_error (item_lookup st) j = Some (k, r') ->
                 nth_error (dict_keys (item_lookup st)) j = Some k
                 /\ nth_error (items st) j = Some r').
  { intros j k r' Hj. rewrite <- Hv. unfold dict_keys, dict_values.
    rewrite !nth_error_map, Hj. now split. }
  assert (Hback : forall j r', nth_error (items st) j = Some r' ->
                    exists k, nth_error (item_lookup st) j = Some (k, r')).
  { intros j r' Hj. rewrite <- Hv in Hj. unfold dict_values in Hj.
    rewrite nth_error_map in Hj.
    destruct (nth_error (item_lookup st) j) as [[k r'']|]; [|discriminate].
    injection Hj as ->. now exists k. }
  assert (Hsame : forall j, nth_error (dict_keys (item_lookup st)) j = Some id ->
                    j = i).
  { intros j Hj. destruct (Hk i id r Hi) as [Hki _].
    assert (Hlt : (j < List.length (dict_keys (item_lookup st)))%nat)
      by (apply nth_error_Some; congruence).
    apply (proj1 (NoDup_nth_error _) Hn j i Hlt). congruence. }
  destruct (Hk i id r Hi) as [Hki Hii].
  exists i, x. repeat split; auto.
  - intros j Hj. destruct (Hback j r Hj) as (k & Hjk).
    apply Hsame. destruct (Hk j k r Hjk) as [Hkj _].
    destruct (Hh k r (nth_error_In _ _ Hjk)) as (x0 & Hx0 & Hid0). congruence.
  - intros j r' x' Hj Hx' Hid'. destruct (Hback j r' Hj) as (k & Hjk).
    apply Hsame. destruct (Hk j k r' Hjk) as [Hkj _].
    destruct (Hh k r' (nth_error_In _ _ Hjk)) as (x0 & Hx0 & Hid0). congruence.
  - rewrite <- Hv. unfold dict_values, dict_keys. now rewrite !length_map.
Qed.

(** C5, as the code has it.  After any sequence of [process_event] calls
    from the empty store (failing calls included), every identifier of the
    index sits in the sequence exactly once, at the ordinal it has in the
    index: the [i]-th key of [item_lookup], in the insertion order the
    dictionary keeps, maps to the very object that is [items[i]]; no other
    position of [items] holds that object or an object with that
    identifier; and the two containers have the same length.  The ordinal
    is the rank among the identifiers now in the index, not the position
    at which the identifier was first inserted: deleting an earlier item
    moves the later ones down by one in both containers alike. *)
Theorem items_follow_item_lookup :
  forall (default_frequency : Z) (b64decode : string -> option bytes)
         (evs : list (event * list (option bytes))) (id : string) (r : ref),
    let st := process_events default_frequency b64decode evs
                RealtimeConversation_init in
    dict_get id (item_lookup st) = Some r ->
    exists i x,
      nth_error (dict_keys (item_lookup st)) i = Some id
      /\ nth_error (items st) i = Some r
      /\ nth_error (heap st) r = Some x /\ i_id x = id
      /\ (forall j, nth_error (items st) j = Some r -> j = i)
      /\ (forall j r' x',
            nth_error (items st) j = Some r' ->
            nth_error (heap st) r' = Some x' -> i_id x' = id -> j = i)
      /\ List.length (items st) = List.length (dict_keys (item_lookup st)).
Proof.
  intros freq b64 evs id r st Hget.
  apply store_inv_ordinal; [|exact Hget].
  apply process_events_keep_store_inv, store_inv_init.
Qed.

(** The second of two items is found at ordinal 0 once the first one has
    been deleted. *)
Lemma items_follow_item_lookup_witness :
  let st := process_events 24000 b64decode_canonical two_created_one_deleted
              RealtimeConversation_init in
  dict_get "item_B" (item_lookup st) = Some 1%nat
  /\ exists i x,
      nth_error (dict_keys (item_lookup st)) i = Some "item_B"
      /\ nth_error (items st) i = Some 1%nat
      /\ nth_error (heap st) 1%nat = Some x /\ i_id x = "item_B"
      /\ (forall j, nth_error (items st) j = Some 1%nat -> j = i)
      /\ (forall j r' x',
            nth_error (items st) j = Some r' ->
            nth_error (heap st) r' = Some x' -> i_id x' = "item_B" -> j = i)
      /\ List.length (items st) = List.length (dict_keys (item_lookup st)).
Proof.
  split; [reflexivity|].
  apply (items_follow_item_lookup 24000 b64decode_canonical
           two_created_one_deleted "item_B" 1%nat).
  reflexivity.
Defined.

(** C5, on the code: [item_B] is inserted at ordinal 1 (after [item_A]);
    once [item_A] is deleted, [item_B] is still in the index and maps to
    the same object, but that object is now [items[0]] and [items] has no
    ordinal 1 any more. *)
Lemma deleted_item_moves_later_items_down :
  let before := process_events 24000 b64decode_canonical
                  (firstn 2 two_created_one_deleted)
                  RealtimeConversation_init in
  let after := process_events 24000 b64decode_canonical
                 two_created_one_deleted RealtimeConversation_init in
  dict_get "item_B" (item_lookup before) = Some 1%nat
  /\ nth_error (items before) 1 = Some 1%nat
  /\ dict_get "item_B" (item_lookup after) = Some 1%nat
  /\ nth_error (items after) 1 = None
  /\ nth_error (items after) 0 = Some 1%nat.
Proof. repeat split. Qed.
(** ** The store on concrete inputs *)

(** Speech from 1200 ms to 1800 ms at 24 kHz is the slice
    [buffer[28800:43200]]. *)
Lemma speech_stopped_slices_buffer_witness :
  let res := process_event 24000 b64decode_canonical
               (SpeechStopped "item_S" 1800) [Some captured_buffer]
               store_with_speech in
  fst res = Ok (None, None)
  /\ dict_get "item_S" (queued_speech_items (snd res))
     = Some {| audio_start_ms := 1200; audio_end_ms := Some 1800;
               audio := Some (py_slice captured_buffer 28800 43200) |}
  /\ exists e, fst (process_event 24000 b64decode_canonical
                      (SpeechStopped "item_T" 1800) [Some captured_buffer]
                      store_with_speech) = Raise e.
Proof.
  destruct (speech_stopped_slices_buffer 24000 b64decode_canonical
              store_with_speech "item_S" 1800) as [_ Hsome].
  destruct (speech_stopped_slices_buffer 24000 b64decode_canonical
              store_with_speech "item_T" 1800) as [Hnone _].
  specialize (Hsome {| audio_start_ms := 1200; audio_end_ms := None;
                       audio := None |} x01 (repeat x01 (Z.to_nat 59999)) eq_refl).
  destruct Hsome as [H1 H2].
  split; [exact H1|]. split; [exact H2|].
  apply Hnone. reflexivity.
Defined.

(** A second [created] event for [item_A] leaves the store's containers
    alone and returns a new object. *)
Lemma created_again_returns_fresh_copy_witness :
  let res := process_event 24000 b64decode_canonical
               (ConversationItemCreated item_A) [] store_with_item_A in
  items (snd res) = items store_with_item_A
  /\ item_lookup (snd res) = item_lookup store_with_item_A
  /\ fst res = Ok (Some 1%nat, None)
  /\ get_item "item_A" (snd res) = Some 0%nat.
Proof.
  destruct (created_again_returns_fresh_copy 24000 b64decode_canonical
              store_with_item_A item_A
              (with_status (Some "completed")
                 (with_formatted
                    (Some (with_text "hello" formatted_init)) item_A))
              0%nat eq_refl eq_refl)
    as (H1 & H2 & _ & _ & _ & _ & H7).
  split; [exact H1|]. split; [exact H2|].
  split; [apply H7; reflexivity|].
  unfold get_item. rewrite H2. reflexivity.
Defined.

(** An empty transcript for the unknown [item_A] is queued as one space
    and reaches the item when it is created. *)
Lemma transcript_waits_for_its_item_witness :
  let res := process_event 24000 b64decode_canonical
               (InputAudioTranscriptionCompleted "item_A" 0 EmptyString) []
               RealtimeConversation_init in
  fst res = Ok (None, None)
  /\ dict_get "item_A" (queued_transcript_items (snd res)) = Some " "
  /\ let res2 := process_event 24000 b64decode_canonical
                   (ConversationItemCreated item_A) [] (snd res) in
     exists r cur f,
       fst res2 = Ok (Some r, None)
       /\ dict_get "item_A" (item_lookup (snd res2)) = Some r
       /\ nth_error (heap (snd res2)) r = Some cur
       /\ same_payload cur item_A
       /\ i_formatted cur = Some f
       /\ f_transcript f = " "
       /\ dict_get "item_A" (queued_transcript_items (snd res2)) = None.
Proof.
  destruct (transcript_waits_for_its_item 24000 b64decode_canonical
              RealtimeConversation_init "item_A" 0 EmptyString eq_refl)
    as (H1 & _ & H3 & _ & _ & H6).
  split; [exact H1|]. split; [exact H3|].
  apply (H6 (snd (process_event 24000 b64decode_canonical
                    (InputAudioTranscriptionCompleted "item_A" 0 EmptyString) []
                    RealtimeConversation_init))
            item_A eq_refl eq_refl eq_refl eq_refl).
Defined.

(** C7, on the code.  The transcript of [item_A] is queued while a
    speech entry without audio is queued for the same identifier.  The
    [created] event then inserts the item, raises [KeyError('audio')] on
    the speech entry and never reaches the queued transcript: the stored
    item has an empty [formatted["transcript"]] and the transcript stays
    in the queue.  The same happens after a [speech_stopped] that came
    with an empty buffer. *)
Theorem queued_transcript_is_lost_without_speech_audio :
  let st := process_events 24000 b64decode_canonical
              transcript_during_speech RealtimeConversation_init in
  let res := process_event 24000 b64decode_canonical
               (ConversationItemCreated item_A) [] st in
  let st' := process_events 24000 b64decode_canonical
               transcript_after_silent_speech RealtimeConversation_init in
  let res' := process_event 24000 b64decode_canonical
                (ConversationItemCreated item_A) [] st' in
  dict_get "item_A" (item_lookup st) = None
  /\ dict_get "item_A" (queued_transcript_items st) = Some "hello"
  /\ fst res = Raise (KeyError "audio")
  /\ dict_get "item_A" (item_lookup (snd res)) = Some 0%nat
  /\ items (snd res) = [0%nat]
  /\ (exists cur f,
        nth_error (heap (snd res)) 0 = Some cur
        /\ i_formatted cur = Some f /\ f_transcript f = EmptyString)
  /\ dict_get "item_A" (queued_transcript_items (snd res)) = Some "hello"
  /\ fst res' = Raise (KeyError "audio")
  /\ (exists cur f,
        nth_error (heap (snd res')) 0 = Some cur
        /\ i_formatted cur = Some f /\ f_transcript f = EmptyString)
  /\ dict_get "item_A" (queued_transcript_items (snd res')) = Some "hello".
Proof.
  cbv zeta.
  split; [reflexivity|]. split; [reflexivity|]. split; [reflexivity|].
  split; [reflexivity|]. split; [reflexivity|].
  split; [do 2 eexists; repeat split|].
  split; [reflexivity|]. split; [reflexivity|].
  split; [do 2 eexists; repeat split|]. reflexivity.
Qed.

(** An audio delta for the unknown [item_Y] is dropped; once the item
    exists, a delta of two bytes becomes its first chunk. *)
Lemma audio_delta_for_unknown_item_is_dropped_witness :
  process_event 24000 b64decode_canonical
    (ResponseAudioDelta "item_Y" 0 "AQI=") [] RealtimeConversation_init
  = (Ok (None, None), RealtimeConversation_init)
  /\ let res := process_event 24000 b64decode_canonical
                  (ResponseAudioDelta "item_Y" 0 "AQI=") []
                  store_with_item_Y in
     fst res = Ok (Some 0%nat, Some (DAudio [x01; x02]))
     /\ exists cur f,
         nth_error (heap (snd res)) 0%nat = Some cur
         /\ i_formatted cur = Some f
         /\ f_audio f = AudioChunks [[x01; x02]].
Proof.
  destruct (audio_delta_for_unknown_item_is_dropped 24000 b64decode_canonical
              RealtimeConversation_init "item_Y" 0 "AQI=" eq_refl)
    as (H1 & _ & _ & _ & _).
  destruct (audio_delta_for_unknown_item_is_dropped 24000 b64decode_canonical
              RealtimeConversation_init "item_Y" 0 "AQI=" eq_refl)
    as (_ & _ & _ & _ & H5).
  split; [exact H1|].
  destruct (H5 store_with_item_Y 0%nat
              (with_status (Some "in_progress")
                 (with_formatted (Some formatted_init) item_Y))
              formatted_init [] [x01; x02] "AQI="
              eq_refl eq_refl eq_refl eq_refl eq_refl) as [H6 H7].
  split; [exact H6|].
  eexists. eexists. split; [exact H7|]. split; reflexivity.
Defined.

(** ** Truncation *)

(** [l[:stop]] with a non-negative bound is [firstn]. *)
Lemma py_slice_to_firstn {A} (l : list A) (stop : Z) :
  0 <= stop -> py_slice_to l stop = firstn (Z.to_nat stop) l.
Proof.
  intros H. unfold py_slice_to, py_slice, py_clamp.
  change (0 <? 0) with false. cbv iota.
  destruct (stop <? 0) eqn:E; [apply Z.ltb_lt in E; lia|].
  rewrite (Z.min_l 0) by lia. rewrite Z.sub_0_r. simpl.
  destruct (Z.le_ge_cases stop (Z.of_nat (List.length l))) as [Hle|Hge].
  - now rewrite Z.min_l.
  - rewrite Z.min_r by lia. rewrite Nat2Z.id.
    rewrite firstn_all. symmetry. apply firstn_all2. lia.
Qed.

Section Truncation.

Variable default_frequency : Z.
Variable b64decode : string -> option bytes.

(** A [truncated] event for an identifier that is not in the index fails
    and leaves the store as it was. *)
Lemma truncated_unknown_item_fails (st : RealtimeConversation)
  (item_id : string) (content_index end_ms : Z) :
  dict_get item_id (item_lookup st) = None ->
  process_event default_frequency b64decode
    (ConversationItemTruncated item_id content_index end_ms) [] st
  = (Raise (PyException ("item.truncated: Item " ++ quoted item_id
                           ++ " not found")), st).
Proof.
  intros Hnone. simpl. unfold _process_item_truncated.
  now rewrite bind_gets, Hnone.
Qed.

(** On a stored item the transcript is cleared and the audio is sliced
    with [[:end_index]], whatever kind of sequence it is. *)
Lemma truncated_known_item (st : RealtimeConversation) (item_id : string)
  (content_index end_ms : Z) (r : ref) (cur : item) (f : formatted_t) :
  dict_get item_id (item_lookup st) = Some r ->
  nth_error (heap st) r = Some cur ->
  i_formatted cur = Some f ->
  let res := process_event default_frequency b64decode
               (ConversationItemTruncated item_id content_index end_ms) [] st in
  fst res = Ok (Some r, None)
  /\ nth_error (heap (snd res)) r
     = Some (with_formatted
               (Some (with_audio
                        (truncate_audio (f_audio f)
                           ((end_ms * default_frequency) / 1000))
                        (with_transcript EmptyString f))) cur).
Proof.
  intros Hsome Hr Hf. cbv zeta.
  assert (Hrun : exists s',
             process_event default_frequency b64decode
               (ConversationItemTruncated item_id content_index end_ms) [] st
             = (Ok (Some r, None), s')
             /\ nth_error (heap s') r
                = Some (with_formatted
                          (Some (with_audio
                                   (truncate_audio (f_audio f)
                                      ((end_ms * default_frequency) / 1000))
                                   (with_transcript EmptyString f))) cur)).
  { simpl. unfold _process_item_truncated. rewrite bind_gets, Hsome.
    erewrite bind_ok by (eapply run_fmt_update_at; eassumption).
    erewrite bind_ok.
    2:{ eapply run_fmt_update_at.
        - st_simpl. apply nth_error_list_upd_same. exact Hr.
        - reflexivity. }
    eexists. split; [reflexivity|]. st_simpl.
    erewrite nth_error_list_upd_same
      by (apply nth_error_list_upd_same; exact Hr).
    reflexivity. }
  destruct Hrun as (s' & -> & Hs'). now split.
Qed.

(** Slicing a flat buffer keeps its first [end_index] bytes. *)
Lemma truncate_audio_buffer (b : bytes) (end_index : Z) :
  0 <= end_index ->
  audio_bytes (truncate_audio (AudioBuf b) end_index)
  = firstn (Z.to_nat end_index) b.
Proof. intros H. simpl. now apply py_slice_to_firstn. Qed.

(** Slicing a list of chunks keeps its first [end_index] chunks. *)
Lemma truncate_audio_chunks (cs : list bytes) (end_index : Z) :
  0 <= end_index ->
  truncate_audio (AudioChunks cs) end_index
  = AudioChunks (firstn (Z.to_nat end_index) cs).
Proof. intros H. simpl. f_equal. now apply py_slice_to_firstn. Qed.

End Truncation.

(** ** The client *)

Section ClientFacts.

Variable default_frequency : Z.
Variable b64decode : string -> option bytes.
Variable json_loads : string -> outcome pyval.

Lemma subscribers_touch {V} (k k' : string) (d : dict (list V)) :
  subscribers k (touch k' d) = subscribers k d.
Proof.
  unfold subscribers, touch.
  destruct (dict_get k' d) as [l|] eqn:E; [reflexivity|].
  destruct (string_dec k k') as [->|Hne].
  - now rewrite dict_get_set_same, E.
  - now rewrite dict_get_set_other.
Qed.

Lemma bind_lift_modify {B} (f : RealtimeConversation -> RealtimeConversation)
  (k : unit -> M RealtimeClient B) (c : RealtimeClient) :
  bind (lift_conversation (modify f)) k c
  = k tt (set_conversation (f (conversation c)) c).
Proof. reflexivity. Qed.

(** With the client's own subscriptions, a [send] on an open connection
    goes through: only [_log_event] is called, then the event is written
    to the socket. *)
Lemma send_connected (c : RealtimeClient) (event_name : string)
  (data : dict pyval) :
  is_connected c = true ->
  engine_subscriptions c ->
  dict_get ("client." ++ event_name)
    (api_event_handlers (realtime RealtimeClient_new)) = None ->
  send default_frequency b64decode event_name data c
  = (Ok tt, after_send event_name data c).
Proof.
  intros Hconn Hsubs Hname. unfold send.
  rewrite bind_get, Hconn. cbn [negb].
  unfold realtime_dispatch.
  rewrite bind_assoc, bind_get.
  rewrite (Hsubs ("client." ++ event_name)).
  unfold subscribers at 1. rewrite Hname.
  rewrite bind_assoc, bind_modify. cbn [for_each]. rewrite bind_ret.
  rewrite bind_assoc, bind_get.
  cbn [realtime api_event_handlers set_realtime set_api_event_handlers].
  rewrite subscribers_touch, (Hsubs "client.*").
  change (subscribers "client.*" (api_event_handlers (realtime RealtimeClient_new)))
    with [h_log_event].
  reflexivity.
Qed.


Lemma after_send_connected (c : RealtimeClient) (n : string) (d : dict pyval) :
  is_connected (after_send n d c) = is_connected c.
Proof. reflexivity. Qed.

Lemma after_send_subscriptions (c : RealtimeClient) (n : string)
  (d : dict pyval) :
  engine_subscriptions c -> engine_subscriptions (after_send n d c).
Proof.
  intros H name. unfold after_send.
  cbn [realtime api_event_handlers set_realtime set_api_event_handlers set_sent].
  rewrite !subscribers_touch. apply H.
Qed.

Lemma engine_subscriptions_realtime (c c' : RealtimeClient) :
  realtime c' = realtime c ->
  engine_subscriptions c -> engine_subscriptions c'.
Proof. intros E H name. rewrite E. apply H. Qed.

Ltac subs_tac :=
  first [ assumption
        | apply after_send_subscriptions; subs_tac
        | eapply engine_subscriptions_realtime; [reflexivity | subs_tac] ].

Lemma get_turn_detection_type_run (c : RealtimeClient) :
  get_turn_detection_type c
  = match turn_detection_lookup c with
    | Some t => (Ok t, c)
    | None =>
        (Raise (AttributeError
                  ("'" ++ match dict_get "turn_detection" (session_config c) with
                          | Some v => type_name v
                          | None => EmptyString
                          end ++ "' object has no attribute 'get'")), c)
    end.
Proof.
  unfold get_turn_detection_type, turn_detection_lookup.
  rewrite bind_gets.
  destruct (dict_get "turn_detection" (session_config c)) as [[]|]; reflexivity.
Qed.

(** [create_response] on an open connection, when the turn-detection
    lookup goes through: the buffer is committed and stashed exactly when
    the type is [None] and the buffer is not empty, and [response.create]
    is sent last. *)
Lemma create_response_connected (c : RealtimeClient) (t : pyval) :
  is_connected c = true ->
  engine_subscriptions c ->
  turn_detection_lookup c = Some t ->
  create_response default_frequency b64decode c
  = (Ok true, after_create_response t c).
Proof.
  intros Hconn Hsubs Ht. unfold create_response, after_create_response.
  erewrite bind_ok by (rewrite get_turn_detection_type_run, Ht; reflexivity).
  rewrite bind_gets.
  destruct (is_none t && (0 <? Z.of_nat (List.length (input_audio_buffer c)))).
  - unfold await. rewrite !bind_assoc.
    erewrite bind_ok by (apply send_connected; [auto | subs_tac | reflexivity]).
    repeat first [ rewrite bind_assoc | rewrite bind_gets
                 | rewrite bind_lift_modify | rewrite bind_modify ].
    erewrite bind_ok by (apply send_connected; [auto | subs_tac | reflexivity]).
    reflexivity.
  - rewrite bind_ret. unfold await.
    erewrite bind_ok by (apply send_connected; [auto | subs_tac | reflexivity]).
    reflexivity.
Qed.

(** *** Tool calls *)




(** *** Cancelling a response *)



End ClientFacts.
(** ** Claims about the client *)

Section ClientClaims.

Variable default_frequency : Z.
Variable b64decode : string -> option bytes.

(** What [create_response] sends when the lookup goes through: one
    [input_audio_buffer.commit] exactly when the turn-detection type is
    [None] and the local buffer is not empty (the buffer then moves to
    [queued_input_audio]), and one [response.create] in every case. *)
Lemma create_response_sends (c : RealtimeClient) (t : pyval) :
  is_connected c = true ->
  engine_subscriptions c ->
  turn_detection_lookup c = Some t ->
  let res := create_response default_frequency b64decode c in
  let commits := is_none t && (0 <? Z.of_nat (List.length (input_audio_buffer c))) in
  fst res = Ok true
  /\ sent (realtime (snd res))
     = (sent (realtime c)
          ++ (if commits then [("input_audio_buffer.commit", [])] else [])
          ++ [("response.create", [])])%list
  /\ (commits = true ->
      queued_input_audio (conversation (snd res)) = Some (input_audio_buffer c)
      /\ input_audio_buffer (snd res) = [])
  /\ (commits = false ->
      conversation (snd res) = conversation c
      /\ input_audio_buffer (snd res) = input_audio_buffer c).
Proof.
  intros Hconn Hsubs Ht. cbv zeta.
  rewrite (create_response_connected default_frequency b64decode c t Hconn Hsubs Ht).
  unfold after_create_response.
  destruct (is_none t && (0 <? Z.of_nat (List.length (input_audio_buffer c))));
    simpl.
  - split; [reflexivity|]. split; [now rewrite <- app_assoc|].
    split; [auto|discriminate].
  - split; [reflexivity|]. split; [reflexivity|].
    split; [discriminate|auto].
Qed.


End ClientClaims.


(** The two floating-point steps behind it: [24024 / 24000] is
    [4508103226997866 * 2^-52], and its product with 1000 rounds to
    [8804889115230207 * 2^-43], which lies in [[1000, 1001)]. *)
Lemma audio_end_ms_steps_at_24024 :
  Prim2SF (PrimFloat.div (Z2float 24024) (Z2float 24000))
  = S754_finite false 4508103226997866 (-52)
  /\ Prim2SF (PrimFloat.mul (PrimFloat.div (Z2float 24024) (Z2float 24000))
                (Z2float 1000))
     = S754_finite false 8804889115230207 (-43)
  /\ 1000 * 2 ^ 43 <= 8804889115230207 < 1001 * 2 ^ 43
  /\ audio_end_ms_of 24000 24024 = Ok 1000.
Proof. vm_compute. repeat split; discriminate. Qed.




(** The serialised error of the example, character by character. *)
Lemma error_output_boom :
  error_output (PyException "boom")
  = "{" ++ dq ++ "error" ++ dq ++ ": " ++ dq ++ "boom" ++ dq ++ "}".
Proof. reflexivity. Qed.


(** *** Reset *)

(** [disconnect], when awaited, clears the store and closes the
    connection. *)
Lemma disconnect_clears (c : RealtimeClient) :
  let res := disconnect c in
  fst res = Ok tt
  /\ conversation (snd res) = clear (conversation c)
  /\ ws (realtime (snd res)) = None
  /\ session_created (snd res) = false.
Proof.
  unfold disconnect, await, realtime_disconnect, is_connected. cbv zeta.
  rewrite bind_modify, bind_lift_modify, bind_get.
  cbn [realtime set_conversation set_session_created].
  destruct (ws (realtime c)) as [w|] eqn:Ews.
  - rewrite bind_get. cbn [realtime set_conversation set_session_created].
    rewrite Ews. repeat split.
  - repeat split. exact Ews.
Qed.

(** [reset] creates the coroutine of [disconnect] and drops it: the
    subscriptions and the configuration are reset, the store and the
    connection are left as they were. *)
Lemma reset_skips_disconnect (c : RealtimeClient) :
  let res := reset c in
  fst res = Ok true
  /\ api_event_handlers (realtime (snd res))
     = api_event_handlers (realtime RealtimeClient_new)
  /\ session_config (snd res) = default_session_config
  /\ tools (snd res) = []
  /\ input_audio_buffer (snd res) = []
  /\ session_created (snd res) = false
  /\ conversation (snd res) = conversation c
  /\ ws (realtime (snd res)) = ws (realtime c).
Proof. repeat split. Qed.

